(** * Manifest rendering for a hosted control plane: pkg/render/manifests.go

    A shallow embedding of the cluster manifest context of the installer
    and the properties of its rendering pass.  Go strings are byte
    sequences and are modelled as [string]; Go maps are [gmap]s; the
    accumulated output of the render context is an insertion-ordered
    association list; a method that mutates its receiver becomes a
    computation in a state monad whose only failure is a Go panic. *)

From Stdlib Require Import Ascii.
From stdpp Require Import base strings list gmap fin_maps.

Local Open Scope string_scope.
Local Open Scope list_scope.

(** ** Go library functions used by the source *)

Module Go.

(** [strings.Split(s, sep)] for a separator [sep] of one byte.  The first
    piece and the later pieces are computed together, so that the slice
    returned is the first piece followed by the others. *)
Fixpoint SplitPieces (s : string) (sep : ascii) : string * list string :=
  match s with
  | EmptyString => (EmptyString, [])
  | String ch rest =>
      let (piece, pieces) := SplitPieces rest sep in
      if Ascii.eqb ch sep then (EmptyString, piece :: pieces)
      else (String ch piece, pieces)
  end.

Definition Split (s : string) (sep : ascii) : list string :=
  let (piece, pieces) := SplitPieces s sep in piece :: pieces.

(** [strings.ReplaceAll(s, old, new)] for a pattern [old] of one byte. *)
Fixpoint ReplaceAll (s : string) (old : ascii) (new : string) : string :=
  match s with
  | EmptyString => EmptyString
  | String ch rest =>
      if Ascii.eqb ch old then new +:+ ReplaceAll rest old new
      else String ch (ReplaceAll rest old new)
  end.

(** The loop of [path.Base] that strips the trailing slashes. *)
Fixpoint stripTrailingSlashes (s : string) : string :=
  match s with
  | EmptyString => EmptyString
  | String ch rest =>
      match stripTrailingSlashes rest with
      | EmptyString => if Ascii.eqb ch "/" then EmptyString else String ch EmptyString
      | kept => String ch kept
      end
  end.

(** [lastSlash] of package path: the index of the last slash, if any
    (Go returns -1 when there is none). *)
Fixpoint lastSlash (s : string) : option nat :=
  match s with
  | EmptyString => None
  | String ch rest =>
      match lastSlash rest with
      | Some i => Some (S i)
      | None => if Ascii.eqb ch "/" then Some 0 else None
      end
  end.

(** The slice expression [s[n:]]. *)
Fixpoint sliceFrom (n : nat) (s : string) : string :=
  match n, s with
  | 0, _ => s
  | S n', String _ rest => sliceFrom n' rest
  | S _, EmptyString => EmptyString
  end.

(** [path.Base]. *)
Definition Base (path : string) : string :=
  if String.eqb path "" then "."
  else
    let path := stripTrailingSlashes path in
    let path := match lastSlash path with
                | Some i => sliceFrom (S i) path
                | None => path
                end in
    if String.eqb path "" then "/" else path.

(** [strings.Join(elems, sep)]. *)
Fixpoint Join (elems : list string) (sep : string) : string :=
  match elems with
  | [] => EmptyString
  | x :: rest =>
      match rest with
      | [] => x
      | _ :: _ => x +:+ sep +:+ Join rest sep
      end
  end.

End Go.

(** ** The naming transform (manifests.go, lines 188-191) *)

(** [parts[0]] is a checked index: on an empty slice Go panics, and the
    model has no name to return. *)
Definition userConfigMapName (file : string) : option string :=
  let parts := Go.Split file "." in
  part0 ← parts !! 0;
  Some ("user-manifest-" +:+ Go.ReplaceAll part0 "_" "-").

(** [trimFirstSegment] (lines 183-186).  [parts[1:]] is a checked slice:
    on an empty slice Go panics, and the model has nothing to return. *)
Definition trimFirstSegment (s : string) : option string :=
  let parts := Go.Split s "." in
  if decide (1 <= length parts) then Some (Go.Join (drop 1 parts) ".") else None.

(** ** Errors and results *)

(** A Go [error] is identified with its message, which is what
    [err.Error()] hands to [panic] in the source. *)
Definition error := string.

Inductive result (A : Type) : Type :=
| Ok (a : A)
| Err (e : error).
Arguments Ok {A} a.
Arguments Err {A} e.

(** Modelled from the spec: the error kind [PatchTargetMissing] of the
    render context (section 7), which is declared outside the file. *)
Definition PatchTargetMissing : error := "PatchTargetMissing".

(** ** A state monad with panics

    A method with a pointer receiver is a computation over the machine
    state.  A panic unwinds the whole call stack: nothing in the source
    recovers, so the state at the point of the panic is dropped. *)

Inductive Run (A : Type) : Type :=
| Done (a : A)
| Panic (msg : string).
Arguments Done {A} a.
Arguments Panic {A} msg.

Definition M (S A : Type) : Type := S -> Run (A * S).

Definition ret {S A} (a : A) : M S A := fun st => Done (a, st).

Definition bind {S A B} (m : M S A) (k : A -> M S B) : M S B :=
  fun st => match m st with
            | Done (a, st') => k a st'
            | Panic msg => Panic msg
            end.

Definition panic {S A} (msg : string) : M S A := fun _ => Panic msg.

Definition modify {S} (f : S -> S) : M S unit := fun st => Done (tt, f st).

Notation "'let*' x ':=' m 'in' k" := (bind m (fun x => k))
  (at level 10, x name, m at level 100, k at level 200).
Notation "m '*>' k" := (bind m (fun _ => k))
  (at level 100, k at level 200, right associativity).

(** ** The insertion-ordered output mapping *)

Module OMap.

(** Modelled from the spec: the ordered mapping from output name to
    rendered text owned by the render context (section 3).  The last
    write for a name wins and keeps the place of the first insertion. *)
Fixpoint get (k : string) (m : list (string * string)) : option string :=
  match m with
  | [] => None
  | (k', v) :: m' => if String.eqb k k' then Some v else get k m'
  end.

Fixpoint set (k v : string) (m : list (string * string)) : list (string * string) :=
  match m with
  | [] => [(k, v)]
  | (k', v') :: m' =>
      if String.eqb k k' then (k, v) :: m' else (k', v') :: set k v m'
  end.

Definition keys (m : list (string * string)) : list string := map fst m.

End OMap.

(** ** The collaborators of the render package *)

Record ReleaseInfo := {
  Images : gmap string string;
  Versions : gmap string string }.

(** The [template.FuncMap] installed at lines 35-48.  The helper names
    are fixed there; the registry is determined by what the closures
    capture. *)
Record FuncMap (P : Type) := {
  fm_versions : gmap string string;
  fm_images : gmap string string;
  fm_params : P;
  fm_includeVPN : bool;
  fm_pkiDir : string }.
Arguments fm_versions {P} _.
Arguments fm_images {P} _.
Arguments fm_params {P} _.
Arguments fm_includeVPN {P} _.
Arguments fm_pkiDir {P} _.

(** The root scope handed to a template: the cluster parameters, or a
    [map[string]string]. *)
Inductive TemplateData (P : Type) : Type :=
| ParamsData (p : P)
| MapData (m : gmap string string).
Arguments ParamsData {P} p.
Arguments MapData {P} m.

(** What the package takes from outside: the parameter type of package
    api with the two fields read at line 15, the release resolver, the
    asset library with its template engine, and the entropy that
    [randomString] draws from. *)
Record Env := {
  ClusterParams : Type;
  ReleaseImage : ClusterParams -> string;
  OriginReleasePrefix : ClusterParams -> string;
  GetReleaseInfo : string -> string -> string -> result ReleaseInfo;
  AssetDir : string -> result (list string);
  Rng : Type;
  execute : option (FuncMap ClusterParams) -> TemplateData ClusterParams ->
            string -> Rng -> result string * Rng }.

(** ** The contexts (lines 24-28) *)

Record renderContext (P : Type) := {
  outputDir : string;
  params : P;
  funcs : option (FuncMap P);
  manifests : list (string * string) }.
Arguments outputDir {P} _.
Arguments params {P} _.
Arguments funcs {P} _.
Arguments manifests {P} _.

Record clusterManifestContext (P : Type) := {
  embedded : renderContext P;
  userManifestFiles : list string;
  userManifests : gmap string string }.
Arguments embedded {P} _.
Arguments userManifestFiles {P} _.
Arguments userManifests {P} _.

(** What a run does not fix: the entropy, and the order in which a
    [range] over a map visits its entries. *)
Record Runtime (E : Env) := {
  rng : Rng E;
  rangeOrder : list (string * string) -> list (string * string) }.
Arguments rng {E} _.
Arguments rangeOrder {E} _.

Record Machine (E : Env) := {
  self : clusterManifestContext (ClusterParams E);
  runtime : Runtime E }.
Arguments self {E} _.
Arguments runtime {E} _.

(** How a call of [RenderClusterManifests] ends. *)
Inductive Exit : Type :=
| Return (err : option error)
| Unwind (msg : string).

Section Render.

Context {E : Env}.

Local Abbreviation P := (ClusterParams E).
Local Abbreviation Ctx := (clusterManifestContext (ClusterParams E)).
Local Abbreviation Method := (M (Machine E)).

(** *** Field updates through the receiver pointer *)

Definition setManifests (ms : list (string * string)) (c : Ctx) : Ctx :=
  {| embedded := {| outputDir := outputDir (embedded c);
                    params := params (embedded c);
                    funcs := funcs (embedded c);
                    manifests := ms |};
     userManifestFiles := userManifestFiles c;
     userManifests := userManifests c |}.

Definition setUserManifestFiles (fs : list string) (c : Ctx) : Ctx :=
  {| embedded := embedded c;
     userManifestFiles := fs;
     userManifests := userManifests c |}.

Definition setUserManifests (um : gmap string string) (c : Ctx) : Ctx :=
  {| embedded := embedded c;
     userManifestFiles := userManifestFiles c;
     userManifests := um |}.

Definition onSelf (f : Ctx -> Ctx) (st : Machine E) : Machine E :=
  {| self := f (self st); runtime := runtime st |}.

Definition setRng (g : Rng E) (st : Machine E) : Machine E :=
  {| self := self st;
     runtime := {| rng := g; rangeOrder := rangeOrder (runtime st) |} |}.

Definition this : Method Ctx := fun st => Done (self st, st).

(** *** The render context (package render, outside this file) *)

(** Modelled from the spec: [newRenderContext], which creates the context
    of one render invocation; nothing is accumulated yet and no function
    registry is installed. *)
Definition newRenderContext (p : P) (dir : string) : renderContext P :=
  {| outputDir := dir; params := p; funcs := None; manifests := [] |}.

(** Modelled from the spec: [setFuncs] installs the function registry. *)
Definition setFuncs (f : FuncMap P) (r : renderContext P) : renderContext P :=
  {| outputDir := outputDir r; params := params r; funcs := Some f;
     manifests := manifests r |}.

(** Modelled from the spec: [substituteParams] loads the named asset and
    expands it with the given root scope and the installed registry; it
    returns the text or an error.  Loading and expanding are the
    [execute] of the environment, which may consume entropy. *)
Definition substituteParams (data : TemplateData P) (fileName : string)
  : Method (result string) :=
  fun st =>
    let (r, g) := execute E (funcs (embedded (self st))) data fileName
                    (rng (runtime st)) in
    Done (r, setRng g st).

(** Modelled from the spec: [addManifest] inserts or overwrites an entry
    of the accumulated output mapping. *)
Definition addManifest (name content : string) : Method unit :=
  modify (onSelf (fun c => setManifests (OMap.set name content (manifests (embedded c))) c)).

(** Modelled from the spec: [addManifestFiles] substitutes the context's
    own parameters into each asset in turn and adds the result under the
    directory-qualified asset name.  A failure is fatal to the pass; the
    callers in the source use no result, so it is a panic. *)
Fixpoint addManifestFiles (names : list string) : Method unit :=
  match names with
  | [] => ret tt
  | name :: rest =>
      let* c := this in
      let* r := substituteParams (ParamsData (params (embedded c))) name in
      match r with
      | Err e => panic e
      | Ok content => addManifest name content *> addManifestFiles rest
      end
  end.

(** Modelled from the spec: [addPatch] requires [baseName] to be present
    and fails with [PatchTargetMissing] otherwise; it concatenates the
    current content with the expansion of the patch asset and overwrites
    the entry.  The caller in the source uses no result, so a failure is
    a panic. *)
Definition addPatch (baseName patchAssetPath : string) : Method unit :=
  let* c := this in
  match OMap.get baseName (manifests (embedded c)) with
  | None => panic PatchTargetMissing
  | Some current =>
      let* r := substituteParams (ParamsData (params (embedded c))) patchAssetPath in
      match r with
      | Err e => panic e
      | Ok patch => addManifest baseName (current +:+ patch)
      end
  end.

(** Modelled from the spec: [renderManifests] hands out the accumulated
    set in insertion order; the source returns its [error]. *)
Definition renderManifests (c : Ctx) : list (string * string) * option error :=
  (manifests (embedded c), None).

(** *** The cluster manifest context (lines 30-181) *)

Definition newClusterManifestContext (images versions : gmap string string)
    (p : P) (pkiDir dir : string) (includeVPN : bool) : Ctx :=
  let ctx := {| embedded := newRenderContext p dir;
                userManifestFiles := [];
                userManifests := ∅ |} in
  {| embedded := setFuncs {| fm_versions := versions; fm_images := images;
                             fm_params := p; fm_includeVPN := includeVPN;
                             fm_pkiDir := pkiDir |} (embedded ctx);
     userManifestFiles := userManifestFiles ctx;
     userManifests := userManifests ctx |}.

Definition addUserManifestFiles (name : list string) : Method unit :=
  modify (onSelf (fun c => setUserManifestFiles (userManifestFiles c ++ name) c)).

Definition addUserManifest (name content : string) : Method unit :=
  modify (onSelf (fun c => setUserManifests (<[name := content]> (userManifests c)) c)).

Definition etcd : Method unit :=
  addManifestFiles [
    "etcd/etcd-cluster-crd.yaml";
    "etcd/etcd-cluster.yaml";
    "etcd/etcd-operator-cluster-role-binding.yaml";
    "etcd/etcd-operator-cluster-role.yaml";
    "etcd/etcd-operator.yaml" ].

Definition oauthOpenshiftServer : Method unit :=
  addUserManifestFiles [ "oauth-openshift/ingress-certs-secret.yaml" ].

Definition kubeAPIServer : Method unit :=
  addPatch "kube-apiserver-deployment.yaml"
           "kube-apiserver/kube-apiserver-deployment-patch.yaml" *>
  addManifestFiles [ "kube-apiserver/kube-apiserver-vpnclient-config.yaml" ].

Definition registry : Method unit :=
  addUserManifestFiles [ "registry/cluster-imageregistry-config.yaml" ].

(** The loop of [clusterBootstrap] over the listing. *)
Fixpoint clusterBootstrapRange (listing : list string) : Method unit :=
  match listing with
  | [] => ret tt
  | m :: rest =>
      addUserManifestFiles [ "cluster-bootstrap/" +:+ m ] *> clusterBootstrapRange rest
  end.

Definition clusterBootstrap : Method unit :=
  match AssetDir E "cluster-bootstrap" with
  | Err e => panic e
  | Ok listing => clusterBootstrapRange listing
  end.

Definition openVPN : Method unit :=
  addManifestFiles [
    "openvpn/openvpn-serviceaccount.yaml";
    "openvpn/openvpn-server-deployment.yaml";
    "openvpn/openvpn-ccd-configmap.yaml";
    "openvpn/openvpn-server-configmap.yaml" ] *>
  addUserManifestFiles [
    "openvpn/openvpn-client-deployment.yaml";
    "openvpn/openvpn-client-configmap.yaml" ].

Definition routerProxy : Method unit :=
  addManifestFiles [
    "router-proxy/router-proxy-deployment.yaml";
    "router-proxy/router-proxy-configmap.yaml";
    "router-proxy/router-proxy-vpnclient-configmap.yaml";
    "router-proxy/router-proxy-http-service.yaml";
    "router-proxy/router-proxy-https-service.yaml" ].

Definition hypershiftOperator : Method unit :=
  addManifestFiles [ "hypershift-operator/hypershift-operator-deployment.yaml" ].

Definition wrapperTemplate : string :=
  "user-manifests-bootstrapper/user-manifest-template.yaml".

(** [userConfigMapName] inside a method: a failed index is a run-time
    panic. *)
Definition configMapName (name : string) : Method string :=
  match userConfigMapName name with
  | Some n => ret n
  | None => panic "index out of range"
  end.

(** The first loop of [userManifestsBootstrapper] (lines 145-160). *)
Fixpoint bootstrapFiles (files : list string) : Method unit :=
  match files with
  | [] => ret tt
  | file :: rest =>
      let* c := this in
      let* r := substituteParams (ParamsData (params (embedded c))) file in
      match r with
      | Err e => panic e
      | Ok data =>
          let name := Go.Base file in
          let* cm := configMapName name in
          let params := MapData {[ "data" := data; "name" := cm ]} in
          let* r' := substituteParams params wrapperTemplate in
          match r' with
          | Err e => panic e
          | Ok manifest =>
              addManifest ("user-manifest-" +:+ name) manifest *> bootstrapFiles rest
          end
      end
  end.

(** The second loop (lines 162-172), over the entries in the order the
    runtime visits them. *)
Fixpoint bootstrapEntries (entries : list (string * string)) : Method unit :=
  match entries with
  | [] => ret tt
  | (name, data) :: rest =>
      let* cm := configMapName name in
      let params := MapData {[ "data" := data; "name" := cm ]} in
      let* r := substituteParams params wrapperTemplate in
      match r with
      | Err e => panic e
      | Ok manifest =>
          addManifest ("user-manifest-" +:+ name) manifest *> bootstrapEntries rest
      end
  end.

Definition userManifestsBootstrapper : Method unit :=
  addManifestFiles [ "user-manifests-bootstrapper/user-manifests-bootstrapper-pod.yaml" ] *>
  (let* c := this in bootstrapFiles (userManifestFiles c)) *>
  (fun st =>
     bootstrapEntries
       (rangeOrder (runtime st) (map_to_list (userManifests (self st)))) st).

Definition when (b : bool) (m : Method unit) : Method unit :=
  if b then m else ret tt.

Definition setupManifests (etcd_ vpn externalOauth includeRegistry : bool) : Method unit :=
  when etcd_ etcd *>
  kubeAPIServer *>
  clusterBootstrap *>
  when externalOauth oauthOpenshiftServer *>
  when vpn openVPN *>
  when includeRegistry registry *>
  userManifestsBootstrapper *>
  routerProxy *>
  hypershiftOperator.

(** [RenderClusterManifests] (lines 14-22): what was handed out, and how
    the call ended. *)
Definition RenderClusterManifests (p : P) (pullSecretFile pkiDir dir : string)
    (etcd_ vpn externalOauth includeRegistry : bool) (rt : Runtime E)
  : list (string * string) * Exit :=
  match GetReleaseInfo E (ReleaseImage E p) (OriginReleasePrefix E p) pullSecretFile with
  | Err err => ([], Return (Some err))
  | Ok releaseInfo =>
      let ctx := newClusterManifestContext (Images releaseInfo) (Versions releaseInfo)
                   p pkiDir dir vpn in
      match setupManifests etcd_ vpn externalOauth includeRegistry
              {| self := ctx; runtime := rt |} with
      | Panic msg => ([], Unwind msg)
      | Done (_, st) =>
          let (out, err) := renderManifests (self st) in (out, Return err)
      end
  end.

End Render.

(** ** The words of the specification, as definitions to compare with *)

(** Everything before the first ['.'] of an identifier. *)
Fixpoint beforeFirstDot (s : string) : string :=
  match s with
  | EmptyString => EmptyString
  | String ch rest =>
      if Ascii.eqb ch "." then EmptyString else String ch (beforeFirstDot rest)
  end.

(** Every underscore replaced by a hyphen. *)
Fixpoint underscoresToHyphens (s : string) : string :=
  match s with
  | EmptyString => EmptyString
  | String ch rest =>
      String (if Ascii.eqb ch "_" then "-"%char else ch) (underscoresToHyphens rest)
  end.

(** The names of an output mapping after one more insertion, and after
    a series of them. *)
Definition addName (ns : list string) (n : string) : list string :=
  if decide (n ∈ ns) then ns else ns ++ [n].

Definition addNames (ns : list string) (l : list string) : list string :=
  fold_left addName l ns.

(** The manifests each feature group contributes, by name. *)
Definition etcdManifests : list string := [
  "etcd/etcd-cluster-crd.yaml";
  "etcd/etcd-cluster.yaml";
  "etcd/etcd-operator-cluster-role-binding.yaml";
  "etcd/etcd-operator-cluster-role.yaml";
  "etcd/etcd-operator.yaml" ].

Definition vpnServerManifests : list string := [
  "openvpn/openvpn-serviceaccount.yaml";
  "openvpn/openvpn-server-deployment.yaml";
  "openvpn/openvpn-ccd-configmap.yaml";
  "openvpn/openvpn-server-configmap.yaml" ].

Definition vpnClientAssets : list string := [
  "openvpn/openvpn-client-deployment.yaml";
  "openvpn/openvpn-client-configmap.yaml" ].

Definition routerProxyManifests : list string := [
  "router-proxy/router-proxy-deployment.yaml";
  "router-proxy/router-proxy-configmap.yaml";
  "router-proxy/router-proxy-vpnclient-configmap.yaml";
  "router-proxy/router-proxy-http-service.yaml";
  "router-proxy/router-proxy-https-service.yaml" ].

Definition operatorManifest : string :=
  "hypershift-operator/hypershift-operator-deployment.yaml".

Definition bootstrapperPod : string :=
  "user-manifests-bootstrapper/user-manifests-bootstrapper-pod.yaml".

(** The output name of a wrapped user manifest file, and of a wrapped
    entry of the user manifest map. *)
Definition wrappedName (file : string) : string :=
  "user-manifest-" +:+ Go.Base file.

Definition entryName (entry : string * string) : string :=
  "user-manifest-" +:+ fst entry.

(** The asset paths the feature groups register as user manifest files,
    given the listing of the cluster-bootstrap directory. *)
Definition registeredBySetup (vpn externalOauth includeRegistry : bool)
    (listing : list string) : list string :=
  map (fun m => "cluster-bootstrap/" +:+ m) listing ++
  (if externalOauth then [ "oauth-openshift/ingress-certs-secret.yaml" ] else []) ++
  (if vpn then vpnClientAssets else []) ++
  (if includeRegistry then [ "registry/cluster-imageregistry-config.yaml" ] else []).

(** The names the bootstrapper inserts, for the user manifest files and
    the map entries it finds. *)
Definition addedByBootstrapper (fs : list string) (entries : list (string * string))
  : list string :=
  [ bootstrapperPod ] ++ map wrappedName fs ++ map entryName entries.

(** The names a setup inserts before the router proxy group runs, and
    the names a whole setup inserts, in order. *)
Definition addedBeforeRouter (etcd_ vpn : bool) (fs : list string)
    (entries : list (string * string)) : list string :=
  (if etcd_ then etcdManifests else []) ++
  [ "kube-apiserver/kube-apiserver-vpnclient-config.yaml" ] ++
  (if vpn then vpnServerManifests else []) ++
  addedByBootstrapper fs entries.

Definition addedBySetup (etcd_ vpn : bool) (fs : list string)
    (entries : list (string * string)) : list string :=
  addedBeforeRouter etcd_ vpn fs entries ++
  routerProxyManifests ++
  [ operatorManifest ].

(** The entries of the user manifest map in the order a [range] visits
    them in the given state. *)
Definition rangedEntries {E : Env} (st : Machine E) : list (string * string) :=
  rangeOrder (runtime st) (map_to_list (userManifests (self st))).

(** The feature groups of a setup in the order of the specification:
    etcd if requested, the API server, the cluster-bootstrap assets, the
    OAuth ingress secret if requested, the VPN if requested, the registry
    configuration if requested, the bootstrapper, the router proxy and
    the operator deployment. *)
Definition groups {E : Env} (etcd_ vpn externalOauth includeRegistry : bool)
  : list (M (Machine E) unit) :=
  (if etcd_ then [ etcd ] else []) ++
  [ kubeAPIServer; clusterBootstrap ] ++
  (if externalOauth then [ oauthOpenshiftServer ] else []) ++
  (if vpn then [ openVPN ] else []) ++
  (if includeRegistry then [ registry ] else []) ++
  [ userManifestsBootstrapper; routerProxy; hypershiftOperator ].

(** The same action for every element of a list, in order. *)
Fixpoint forEach {S A : Type} (l : list A) (f : A -> M S unit) : M S unit :=
  match l with
  | [] => ret tt
  | x :: rest => f x *> forEach rest f
  end.

(** Running the methods of a list one after the other. *)
Definition sequence {S : Type} (ms : list (M S unit)) : M S unit :=
  forEach ms (fun m => m).

(** One step of [addManifestFiles]: substitute the parameters of the
    context into the asset and add the result under its name. *)
Definition addManifestFile {E : Env} (name : string) : M (Machine E) unit :=
  let* c := this in
  let* r := substituteParams (ParamsData (params (embedded c))) name in
  match r with
  | Err e => panic e
  | Ok content => addManifest name content
  end.

(** The wrapping of the specification: derive the ConfigMap name from
    [source], expand the fixed wrapper template on the data and the name,
    and add the result under [outputName]. *)
Definition wrapUserManifest {E : Env} (outputName source data : string)
  : M (Machine E) unit :=
  let* cm := configMapName source in
  let* r := substituteParams (MapData {[ "data" := data; "name" := cm ]}) wrapperTemplate in
  match r with
  | Err e => panic e
  | Ok manifest => addManifest outputName manifest
  end.

(** A user manifest file: substitute the asset against the parameters of
    the context, then wrap under "user-manifest-" and the base name. *)
Definition wrapFile {E : Env} (file : string) : M (Machine E) unit :=
  let* c := this in
  let* r := substituteParams (ParamsData (params (embedded c))) file in
  match r with
  | Err e => panic e
  | Ok data =>
      wrapUserManifest ("user-manifest-" +:+ Go.Base file) (Go.Base file) data
  end.

(** An entry of the user manifest map: wrap under its own name. *)
Definition wrapEntry {E : Env} (entry : string * string) : M (Machine E) unit :=
  wrapUserManifest ("user-manifest-" +:+ fst entry) (fst entry) (snd entry).

(** The output of a machine state, and the names in it. *)
Definition out {E : Env} (st : Machine E) : list (string * string) :=
  manifests (embedded (self st)).

Definition names {E : Env} (st : Machine E) : list string := OMap.keys (out st).

Definition files {E : Env} (st : Machine E) : list string :=
  userManifestFiles (self st).

(** The bootstrapper of the specification: the pod manifest first, then
    every user manifest file, then every entry of the map. *)
Definition bootstrapperPipeline {E : Env} : M (Machine E) unit :=
  addManifestFiles [ bootstrapperPod ] *>
  (fun st => forEach (files st) wrapFile st) *>
  (fun st => forEach (rangedEntries st) wrapEntry st).

(** A render pass on a given context: the setup, then the hand-out. *)
Definition renderPass {E : Env} (etcd_ vpn externalOauth includeRegistry : bool)
    (st : Machine E) : list (string * string) * Exit :=
  match setupManifests etcd_ vpn externalOauth includeRegistry st with
  | Panic msg => ([], Unwind msg)
  | Done (_, st') => let (o, err) := renderManifests (self st') in (o, Return err)
  end.

(** Two machine states agree when they hold the same context and range
    over its user manifest map in the same order; their entropy may
    differ.  Two runs agree when they end alike in states that agree. *)
Definition agree {E : Env} (st1 st2 : Machine E) : Prop :=
  self st1 = self st2 /\ rangedEntries st1 = rangedEntries st2.

Definition agreeRun {E : Env} {A : Type} (r1 r2 : Run (A * Machine E)) : Prop :=
  match r1, r2 with
  | Done (a1, s1), Done (a2, s2) => a1 = a2 /\ agree s1 s2
  | Panic m1, Panic m2 => m1 = m2
  | _, _ => False
  end.

Definition oblivious {E : Env} {A : Type} (m : M (Machine E) A) : Prop :=
  forall st1 st2, agree st1 st2 -> agreeRun (m st1) (m st2).

(** [evolves st st' added registered]: from [st] to [st'] the names
    [added] were inserted in the output, in that order, the asset paths
    [registered] were appended to the user manifest files, and neither
    the user manifest map nor the order of ranging changed. *)
Definition evolves {E : Env} (st st' : Machine E)
    (added registered : list string) : Prop :=
  names st' = addNames (names st) added /\
  files st' = files st ++ registered /\
  userManifests (self st') = userManifests (self st) /\
  rangeOrder (runtime st') = rangeOrder (runtime st).

(** The bytes of a string, and the number of times one occurs. *)
Definition bytes (s : string) : list ascii := String.list_ascii_of_string s.

Definition occurrences (ch : ascii) (s : string) : nat :=
  length (filter (fun c => c = ch) (bytes s)).

(** What no method of the file assigns: the output directory, the
    parameters and the function registry of the context. *)
Definition fixedPart {E : Env} (st : Machine E)
  : string * ClusterParams E * option (FuncMap (ClusterParams E)) :=
  (outputDir (embedded (self st)), params (embedded (self st)),
   funcs (embedded (self st))).

(** A method respects a relation between states when every run of it
    that completes relates the state before to the state after. *)
Definition respects {E : Env} {A : Type} (R : Machine E -> Machine E -> Prop)
    (m : M (Machine E) A) : Prop :=
  forall st a st', m st = Done (a, st') -> R st st'.

(** The output entries outside a set of names are as they were. *)
Definition untouched {E : Env} (T : string -> Prop) (st st' : Machine E) : Prop :=
  forall n, ~ T n -> OMap.get n (out st') = OMap.get n (out st).

(** The names a setup may write under, for given flags: the API server
    deployment it patches, the manifests of the groups that run, and
    the wrapped user manifests. *)
Definition setupWrites (etcd_ vpn : bool) (n : string) : Prop :=
  n = "kube-apiserver-deployment.yaml" \/
  n ∈ (if etcd_ then etcdManifests else []) ++
      [ "kube-apiserver/kube-apiserver-vpnclient-config.yaml" ] ++
      (if vpn then vpnServerManifests else []) ++
      [ bootstrapperPod ] ++ routerProxyManifests ++ [ operatorManifest ] \/
  String.prefix "user-manifest-" n = true.

(** ** A sample environment

    A small asset library to run the methods on: every asset expands to
    a comment naming it, except the patch of the API server deployment,
    one router proxy template that calls [randomString], and the asset
    [failing], which does not expand.  The entropy is a tape of strings
    and [randomString] takes the next one. *)

Module Sample.

Record Params := { image : string; prefix : string }.

Definition expand (failing : string) (fm : option (FuncMap Params))
    (data : TemplateData Params) (path : string) (tape : list string)
  : result string * list string :=
  if String.eqb path failing then (Err ("TemplateError: " +:+ path), tape)
  else
    match data with
    | MapData m =>
        (Ok ("name: " +:+ default "" (m !! "name") +:+
             " data: " +:+ default "" (m !! "data")), tape)
    | ParamsData _ =>
        if String.eqb path "kube-apiserver/kube-apiserver-deployment-patch.yaml"
        then (Ok "replicas: 3", tape)
        else if String.eqb path "router-proxy/router-proxy-configmap.yaml"
        then (Ok (hd "" tape), tl tape)
        else (Ok ("# " +:+ path), tape)
    end.

Definition env (failing : string) : Env := {|
  ClusterParams := Params;
  ReleaseImage := image;
  OriginReleasePrefix := prefix;
  GetReleaseInfo := fun img _ _ =>
    if String.eqb img "" then Err "ReleaseResolutionError"
    else Ok {| Images := ∅; Versions := ∅ |};
  AssetDir := fun dir =>
    if String.eqb dir "cluster-bootstrap" then Ok [ "namespaces.yaml"; "dns_config.yaml" ]
    else Err "AssetNotFoundError";
  Rng := list string;
  execute := expand failing |}.

Definition cluster : Params := {| image := "quay.io/release:4.3"; prefix := "" |}.

Definition runtimeOf (failing : string) (tape : list string)
    (order : list (string * string) -> list (string * string))
  : Runtime (env failing) :=
  {| rng := tape : Rng (env failing); rangeOrder := order |}.

Definition inOrder : Runtime (env "") := runtimeOf "" [ "k3x9" ] (fun l => l).

Definition reversed : Runtime (env "") := runtimeOf "" [ "k3x9" ] (@rev _).

Definition otherTape : Runtime (env "") := runtimeOf "" [ "p7q2" ] (fun l => l).

(** A context as [RenderClusterManifests] creates it. *)
Definition created (failing : string) (rt : Runtime (env failing)) : Machine (env failing) :=
  {| self := newClusterManifestContext (E := env failing) ∅ ∅ cluster "pki" "out" true;
     runtime := rt |}.

(** A context in which the API server deployment has been rendered. *)
Definition seeded (rt : Runtime (env "")) : Machine (env "") :=
  onSelf (setManifests [ ("kube-apiserver-deployment.yaml", "replicas: 1") ])
         (created "" rt).

(** The same with two user manifests supplied directly. *)
Definition withUserManifests (rt : Runtime (env "")) : Machine (env "") :=
  onSelf (setUserManifests {[ "ca_bundle.crt" := "CERT"; "pull-secret" := "AUTH" ]})
         (seeded rt).

(** The sample environment with templates that never call
    [randomString]: nothing is taken from the tape. *)
Definition plain : Env := {|
  ClusterParams := Params;
  ReleaseImage := image;
  OriginReleasePrefix := prefix;
  GetReleaseInfo := GetReleaseInfo (env "");
  AssetDir := AssetDir (env "");
  Rng := list string;
  execute := fun fm data path tape => (fst (expand "" fm data path []), tape) |}.

(** A context of the plain environment with one user manifest supplied
    directly, under a given runtime. *)
Definition plainMachine (tape : list string)
    (order : list (string * string) -> list (string * string)) : Machine plain :=
  {| self := setUserManifests {[ "ca_bundle.crt" := "CERT" ]}
               (setManifests [ ("kube-apiserver-deployment.yaml", "replicas: 1") ]
                  (newClusterManifestContext (E := plain) ∅ ∅ cluster "pki" "out" true));
     runtime := {| rng := tape : Rng plain; rangeOrder := order |} |}.

(** A context that also holds a manifest no feature group knows. *)
Definition withForeign (rt : Runtime (env "")) : Machine (env "") :=
  onSelf (setManifests [ ("kube-apiserver-deployment.yaml", "replicas: 1");
                         ("notes/readme.txt", "keep") ])
         (created "" rt).

(** The sample environment without a cluster-bootstrap directory. *)
Definition unlisted : Env := {|
  ClusterParams := Params;
  ReleaseImage := image;
  OriginReleasePrefix := prefix;
  GetReleaseInfo := GetReleaseInfo (env "");
  AssetDir := fun _ => Err "AssetNotFoundError";
  Rng := list string;
  execute := expand "" |}.

Definition unlistedMachine : Machine unlisted :=
  Build_Machine unlisted (self (seeded inOrder))
    {| rng := [] : Rng unlisted; rangeOrder := fun l => l |}.

(** The same with a user manifest file registered. *)
Definition withUserFiles (rt : Runtime (env "")) : Machine (env "") :=
  onSelf (setUserManifestFiles [ "registry/cluster-imageregistry-config.yaml" ])
         (withUserManifests rt).

End Sample.

(** * Properties *)

(** ** Strings *)

Lemma Split_first (s : string) :
  Go.Split s "." !! 0 = Some (beforeFirstDot s).
Proof.
  unfold Go.Split.
  assert (H : fst (Go.SplitPieces s ".") = beforeFirstDot s).
  { induction s as [|ch rest IH]; [reflexivity|].
    simpl. destruct (Go.SplitPieces rest ".") as [piece pieces].
    simpl in IH. destruct (Ascii.eqb ch "."); simpl; congruence. }
  destruct (Go.SplitPieces s ".") as [piece pieces]. simpl in *. congruence.
Qed.

Lemma ReplaceAll_underscores (s : string) :
  Go.ReplaceAll s "_" "-" = underscoresToHyphens s.
Proof.
  induction s as [|ch rest IH]; [reflexivity|].
  simpl. rewrite IH. destruct (Ascii.eqb ch "_"); reflexivity.
Qed.

Lemma userConfigMapName_eq (file : string) :
  userConfigMapName file =
  Some ("user-manifest-" +:+ underscoresToHyphens (beforeFirstDot file)).
Proof.
  unfold userConfigMapName. rewrite Split_first. simpl.
  now rewrite ReplaceAll_underscores.
Qed.

(** ** The ordered mapping *)

Lemma OMap_get_set_eq (k v : string) (m : list (string * string)) :
  OMap.get k (OMap.set k v m) = Some v.
Proof.
  induction m as [|[k' v'] m IH]; simpl.
  - now rewrite String.eqb_refl.
  - destruct (String.eqb_spec k k') as [->|Hne]; simpl.
    + now rewrite String.eqb_refl.
    + destruct (String.eqb_spec k k'); [contradiction|exact IH].
Qed.

Lemma OMap_get_set_ne (k k' v : string) (m : list (string * string)) :
  k ≠ k' -> OMap.get k' (OMap.set k v m) = OMap.get k' m.
Proof.
  intros Hne. induction m as [|[k0 v0] m IH]; simpl.
  - destruct (String.eqb_spec k' k); congruence.
  - destruct (String.eqb_spec k k0) as [->|Hk]; simpl.
    + destruct (String.eqb_spec k' k0); congruence.
    + destruct (String.eqb_spec k' k0); congruence.
Qed.

Lemma OMap_set_set (k a b : string) (m : list (string * string)) :
  OMap.set k b (OMap.set k a m) = OMap.set k b m.
Proof.
  induction m as [|[k' v'] m IH]; simpl.
  - now rewrite String.eqb_refl.
  - destruct (String.eqb_spec k k') as [->|Hne]; simpl.
    + now rewrite String.eqb_refl.
    + destruct (String.eqb_spec k k'); [contradiction|]. now rewrite IH.
Qed.

Lemma OMap_get_None (k : string) (m : list (string * string)) :
  OMap.get k m = None <-> k ∉ OMap.keys m.
Proof.
  induction m as [|[k' v'] m IH]; simpl.
  - split; [intros _; apply not_elem_of_nil|reflexivity].
  - rewrite not_elem_of_cons.
    destruct (String.eqb_spec k k') as [->|Hne].
    + split; [discriminate|intros [? _]; congruence].
    + rewrite IH. tauto.
Qed.

Lemma OMap_get_Some (k v : string) (m : list (string * string)) :
  OMap.get k m = Some v -> k ∈ OMap.keys m.
Proof.
  intros H. destruct (decide (k ∈ OMap.keys m)) as [|Hn]; [assumption|].
  apply OMap_get_None in Hn. congruence.
Qed.

Lemma OMap_keys_set (k v : string) (m : list (string * string)) :
  OMap.keys (OMap.set k v m) = addName (OMap.keys m) k.
Proof.
  unfold addName. induction m as [|[k' v'] m IH]; simpl.
  - destruct (decide (k ∈ [])) as [H|_]; [inversion H|reflexivity].
  - destruct (String.eqb_spec k k') as [->|Hne]; simpl.
    + destruct (decide (k' ∈ k' :: OMap.keys m)) as [_|Hn]; [reflexivity|].
      exfalso. apply Hn. left.
    + rewrite IH.
      destruct (decide (k ∈ OMap.keys m)) as [Hin|Hnin];
        destruct (decide (k ∈ k' :: OMap.keys m)) as [Hin'|Hnin']; try reflexivity.
      * exfalso. apply Hnin'. now right.
      * exfalso. apply elem_of_cons in Hin' as [?|?]; congruence.
Qed.

(** ** Names added by a series of insertions *)

Lemma elem_of_addName (ns : list string) (n x : string) :
  x ∈ addName ns n <-> x ∈ ns \/ x = n.
Proof.
  unfold addName. destruct (decide (n ∈ ns)) as [Hin|Hnin].
  - split; [tauto|]. intros [?|Heq]; [|subst x]; assumption.
  - rewrite elem_of_app, list_elem_of_singleton. tauto.
Qed.

Lemma elem_of_addNames (l ns : list string) (x : string) :
  x ∈ addNames ns l <-> x ∈ ns \/ x ∈ l.
Proof.
  unfold addNames. revert ns. induction l as [|n l IH]; intros ns; simpl.
  - split; [tauto|]. intros [?|H]; [assumption|inversion H].
  - rewrite IH, elem_of_addName, elem_of_cons. tauto.
Qed.

Lemma addNames_app (ns l1 l2 : list string) :
  addNames ns (l1 ++ l2) = addNames (addNames ns l1) l2.
Proof. unfold addNames. apply fold_left_app. Qed.

Lemma addNames_fresh (l ns : list string) :
  NoDup l -> (forall x, x ∈ l -> x ∉ ns) -> addNames ns l = ns ++ l.
Proof.
  unfold addNames. revert ns. induction l as [|n l IH]; intros ns Hnd Hfresh; simpl.
  - now rewrite app_nil_r.
  - apply NoDup_cons in Hnd as [Hn Hnd].
    unfold addName at 2. destruct (decide (n ∈ ns)) as [Hin|_].
    + exfalso. apply (Hfresh n); [left|assumption].
    + rewrite IH; [now rewrite <- app_assoc|assumption|].
      intros x Hx. rewrite elem_of_app, list_elem_of_singleton.
      intros [Hxns|Heq]; [|subst x; contradiction].
      apply (Hfresh x); [now right|assumption].
Qed.

Lemma NoDup_addName (ns : list string) (n : string) :
  NoDup ns -> NoDup (addName ns n).
Proof.
  intros H. unfold addName. destruct (decide (n ∈ ns)) as [|Hn]; [assumption|].
  apply NoDup_app. split; [assumption|]. split.
  - intros x Hx Hx'. apply list_elem_of_singleton in Hx'. congruence.
  - apply NoDup_singleton.
Qed.

Lemma NoDup_addNames (l ns : list string) :
  NoDup ns -> NoDup (addNames ns l).
Proof.
  unfold addNames. revert ns. induction l as [|n l IH]; intros ns H; simpl.
  - assumption.
  - apply IH, NoDup_addName, H.
Qed.

(** A name that differs from every element of a list of literals. *)
Ltac not_listed H :=
  repeat (apply elem_of_cons in H as [H|H]; [discriminate H|]);
  apply elem_of_nil in H; exact H.

(** ** Running methods *)

Section MethodFacts.

Context {E : Env}.

Implicit Types (st : Machine E).

Lemma bind_Done {A B} (m : M (Machine E) A) (k : A -> M (Machine E) B) st b st2 :
  bind m k st = Done (b, st2) ->
  exists a st1, m st = Done (a, st1) /\ k a st1 = Done (b, st2).
Proof.
  unfold bind. destruct (m st) as [[a st1]|msg]; [eauto|discriminate].
Qed.

Lemma bind_step {A B} (m : M (Machine E) A) (k : A -> M (Machine E) B) st a st1 :
  m st = Done (a, st1) -> bind m k st = k a st1.
Proof. unfold bind. now intros ->. Qed.

Lemma bind_abort {A B} (m : M (Machine E) A) (k : A -> M (Machine E) B) st msg :
  m st = Panic msg -> bind m k st = Panic msg.
Proof. unfold bind. now intros ->. Qed.

Lemma substituteParams_run (data : TemplateData (ClusterParams E)) (f : string) st :
  exists r g, substituteParams data f st = Done (r, setRng g st).
Proof.
  unfold substituteParams.
  destruct (execute E _ data f _) as [r g]. eauto.
Qed.

Lemma addManifest_run (n t : string) st :
  addManifest n t st =
  Done (tt, onSelf (fun c => setManifests (OMap.set n t (manifests (embedded c))) c) st).
Proof. reflexivity. Qed.

Lemma evolves_refl st : evolves st st [] [].
Proof. unfold evolves. simpl. now rewrite app_nil_r. Qed.

Lemma evolves_trans st st1 st2 (a1 a2 r1 r2 : list string) :
  evolves st st1 a1 r1 -> evolves st1 st2 a2 r2 ->
  evolves st st2 (a1 ++ a2) (r1 ++ r2).
Proof.
  intros (Hn1 & Hf1 & Hu1 & Ho1) (Hn2 & Hf2 & Hu2 & Ho2).
  unfold evolves. rewrite addNames_app, Hn2, Hn1, Hf2, Hf1, Hu2, Hu1, Ho2, Ho1.
  now rewrite app_assoc.
Qed.

Lemma evolves_cast st st' (a a' r r' : list string) :
  a = a' -> r = r' -> evolves st st' a r -> evolves st st' a' r'.
Proof. now intros -> ->. Qed.

Lemma evolves_setRng g st : evolves st (setRng g st) [] [].
Proof. unfold evolves. simpl. now rewrite app_nil_r. Qed.

Lemma evolves_addManifest (n t : string) st :
  evolves st (onSelf (fun c => setManifests (OMap.set n t (manifests (embedded c))) c) st)
    [n] [].
Proof.
  unfold evolves, names, out, files. simpl.
  now rewrite OMap_keys_set, app_nil_r.
Qed.

Lemma addManifestFiles_evolves (l : list string) st st' :
  addManifestFiles l st = Done (tt, st') -> evolves st st' l [].
Proof.
  revert st. induction l as [|n l IH]; intros st H.
  - injection H as <-. apply evolves_refl.
  - cbn [addManifestFiles] in H.
    apply bind_Done in H as (c & st0 & Hc & H). injection Hc as <- <-.
    apply bind_Done in H as (r & st1 & Hr & H).
    destruct (substituteParams_run (ParamsData (params (embedded (self st)))) n st)
      as (r' & g & Hs).
    rewrite Hs in Hr. injection Hr as <- <-.
    destruct r' as [content|e]; [|discriminate].
    apply bind_Done in H as ([] & st2 & Ha & H).
    rewrite addManifest_run in Ha. injection Ha as <-.
    apply IH in H.
    apply (evolves_cast _ _ ([] ++ [n] ++ l) _ ([] ++ [] ++ []));
      [reflexivity|reflexivity|].
    eapply evolves_trans; [apply evolves_setRng|].
    eapply evolves_trans; [apply evolves_addManifest|exact H].
Qed.

Lemma addName_present (ns : list string) (n : string) :
  n ∈ ns -> addName ns n = ns.
Proof. intros H. unfold addName. now destruct (decide (n ∈ ns)). Qed.

Lemma addPatch_evolves (baseName patch : string) st st' :
  addPatch baseName patch st = Done (tt, st') ->
  evolves st st' [] [] /\
  exists current text,
    OMap.get baseName (out st) = Some current /\
    OMap.get baseName (out st') = Some (current +:+ text).
Proof.
  intros H. unfold addPatch in H.
  apply bind_Done in H as (c & st0 & Hc & H). injection Hc as <- <-.
  fold (out st) in H.
  destruct (OMap.get baseName (out st)) as [current|] eqn:Hget; [|discriminate].
  apply bind_Done in H as (r & st1 & Hr & H).
  destruct (substituteParams_run (ParamsData (params (embedded (self st)))) patch st)
    as (r' & g & Hs).
  rewrite Hs in Hr. injection Hr as <- <-.
  destruct r' as [text|e]; [|discriminate].
  rewrite addManifest_run in H. injection H as <-.
  split.
  - unfold evolves, names, out, files. simpl.
    rewrite OMap_keys_set, app_nil_r.
    rewrite addName_present; [tauto|]. eapply OMap_get_Some, Hget.
  - exists current, text. split; [reflexivity|].
    unfold out. simpl. apply OMap_get_set_eq.
Qed.

Lemma addUserManifestFiles_evolves (l : list string) st st' :
  addUserManifestFiles l st = Done (tt, st') -> evolves st st' [] l.
Proof. intros H. injection H as <-. now unfold evolves. Qed.

Lemma when_evolves (b : bool) (m : M (Machine E) unit) (a r : list string) :
  (forall st st', m st = Done (tt, st') -> evolves st st' a r) ->
  forall st st', when b m st = Done (tt, st') ->
    evolves st st' (if b then a else []) (if b then r else []).
Proof.
  intros Hm st st' H. destruct b; simpl in H.
  - now apply Hm.
  - injection H as <-. apply evolves_refl.
Qed.

Lemma clusterBootstrapRange_evolves (listing : list string) st st' :
  clusterBootstrapRange listing st = Done (tt, st') ->
  evolves st st' [] (map (fun m => "cluster-bootstrap/" +:+ m) listing).
Proof.
  revert st. induction listing as [|m listing IH]; intros st H.
  - injection H as <-. apply evolves_refl.
  - cbn [clusterBootstrapRange] in H.
    apply bind_Done in H as ([] & st1 & H1 & H).
    apply addUserManifestFiles_evolves in H1. apply IH in H.
    apply (evolves_cast _ _ ([] ++ []) _
             (["cluster-bootstrap/" +:+ m] ++
              map (fun m => "cluster-bootstrap/" +:+ m) listing));
      [reflexivity|reflexivity|].
    eapply evolves_trans; eassumption.
Qed.

Lemma clusterBootstrap_evolves st st' :
  clusterBootstrap st = Done (tt, st') ->
  exists listing,
    AssetDir E "cluster-bootstrap" = Ok listing /\
    evolves st st' [] (map (fun m => "cluster-bootstrap/" +:+ m) listing).
Proof.
  unfold clusterBootstrap.
  destruct (AssetDir E "cluster-bootstrap") as [listing|e]; [|discriminate].
  intros H. exists listing. split; [reflexivity|].
  now apply clusterBootstrapRange_evolves.
Qed.

Lemma configMapName_run (name : string) st :
  configMapName name st =
  Done ("user-manifest-" +:+ underscoresToHyphens (beforeFirstDot name), st).
Proof. unfold configMapName. now rewrite userConfigMapName_eq. Qed.

Lemma bootstrapFiles_evolves (fs : list string) st st' :
  bootstrapFiles fs st = Done (tt, st') -> evolves st st' (map wrappedName fs) [].
Proof.
  revert st. induction fs as [|file fs IH]; intros st H.
  - injection H as <-. apply evolves_refl.
  - cbn [bootstrapFiles] in H.
    apply bind_Done in H as (c & st0 & Hc & H). injection Hc as <- <-.
    apply bind_Done in H as (r & st1 & Hr & H).
    destruct (substituteParams_run (ParamsData (params (embedded (self st)))) file st)
      as (r' & g & Hs).
    rewrite Hs in Hr. injection Hr as <- <-.
    destruct r' as [data|e]; [|discriminate].
    apply bind_Done in H as (cm & st2 & Hcm & H).
    rewrite configMapName_run in Hcm. injection Hcm as <- <-.
    apply bind_Done in H as (r2 & st3 & Hr2 & H).
    match type of Hr2 with
    | substituteParams ?d ?f ?s = _ =>
        destruct (substituteParams_run d f s) as (r2' & g2 & Hs2)
    end.
    rewrite Hs2 in Hr2. injection Hr2 as <- <-.
    destruct r2' as [manifest|e]; [|discriminate].
    apply bind_Done in H as ([] & st4 & Ha & H).
    rewrite addManifest_run in Ha. injection Ha as <-.
    apply IH in H.
    apply (evolves_cast _ _ ([] ++ [] ++ [wrappedName file] ++ map wrappedName fs) _
             ([] ++ [] ++ [] ++ [])); [reflexivity|reflexivity|].
    eapply evolves_trans; [apply evolves_setRng|].
    eapply evolves_trans; [apply evolves_setRng|].
    eapply evolves_trans; [apply evolves_addManifest|exact H].
Qed.

Lemma bootstrapEntries_evolves (es : list (string * string)) st st' :
  bootstrapEntries es st = Done (tt, st') -> evolves st st' (map entryName es) [].
Proof.
  revert st. induction es as [|[name data] es IH]; intros st H.
  - injection H as <-. apply evolves_refl.
  - cbn [bootstrapEntries] in H.
    apply bind_Done in H as (cm & st2 & Hcm & H).
    rewrite configMapName_run in Hcm. injection Hcm as <- <-.
    apply bind_Done in H as (r2 & st3 & Hr2 & H).
    match type of Hr2 with
    | substituteParams ?d ?f ?s = _ =>
        destruct (substituteParams_run d f s) as (r2' & g2 & Hs2)
    end.
    rewrite Hs2 in Hr2. injection Hr2 as <- <-.
    destruct r2' as [manifest|e]; [|discriminate].
    apply bind_Done in H as ([] & st4 & Ha & H).
    rewrite addManifest_run in Ha. injection Ha as <-.
    apply IH in H.
    apply (evolves_cast _ _ ([] ++ [entryName (name, data)] ++ map entryName es) _
             ([] ++ [] ++ [])); [reflexivity|reflexivity|].
    eapply evolves_trans; [apply evolves_setRng|].
    eapply evolves_trans; [apply evolves_addManifest|exact H].
Qed.

Lemma userManifestsBootstrapper_evolves st st' :
  userManifestsBootstrapper st = Done (tt, st') ->
  evolves st st' (addedByBootstrapper (files st) (rangedEntries st)) [].
Proof.
  intros H. unfold userManifestsBootstrapper in H.
  apply bind_Done in H as ([] & st1 & H1 & H).
  apply bind_Done in H as ([] & st2 & H2 & H).
  apply bind_Done in H2 as (c & st1' & Hc & H2). injection Hc as <- <-.
  apply addManifestFiles_evolves in H1.
  apply bootstrapFiles_evolves in H2.
  apply bootstrapEntries_evolves in H.
  pose proof H1 as (_ & Hf1 & Hu1 & Ho1).
  pose proof H2 as (_ & Hf2 & Hu2 & Ho2).
  fold (files st1) in H2. rewrite Hf1, app_nil_r in H2.
  rewrite Hu2, Ho2, Hu1, Ho1 in H. fold (rangedEntries st) in H.
  apply (evolves_cast _ _
           ([bootstrapperPod] ++ map wrappedName (files st) ++
            map entryName (rangedEntries st)) _ ([] ++ [] ++ []));
    [reflexivity|reflexivity|].
  eapply evolves_trans; [exact H1|].
  eapply evolves_trans; [exact H2|exact H].
Qed.

Lemma setupManifests_evolves (etcd_ vpn externalOauth includeRegistry : bool) st st' :
  setupManifests etcd_ vpn externalOauth includeRegistry st = Done (tt, st') ->
  exists listing,
    AssetDir E "cluster-bootstrap" = Ok listing /\
    evolves st st'
      (addedBySetup etcd_ vpn
         (files st ++ registeredBySetup vpn externalOauth includeRegistry listing)
         (rangedEntries st))
      (registeredBySetup vpn externalOauth includeRegistry listing).
Proof.
  intros H. unfold setupManifests in H.
  apply bind_Done in H as ([] & s1 & H1 & H).
  apply bind_Done in H as ([] & s2 & H2 & H).
  apply bind_Done in H as ([] & s3 & H3 & H).
  apply bind_Done in H as ([] & s4 & H4 & H).
  apply bind_Done in H as ([] & s5 & H5 & H).
  apply bind_Done in H as ([] & s6 & H6 & H).
  apply bind_Done in H as ([] & s7 & H7 & H).
  apply bind_Done in H as ([] & s8 & H8 & H).
  apply (when_evolves _ _ etcdManifests []) in H1;
    [|intros; now apply addManifestFiles_evolves].
  unfold kubeAPIServer in H2.
  apply bind_Done in H2 as ([] & s1' & H2a & H2b).
  apply addPatch_evolves in H2a as [H2a _].
  apply addManifestFiles_evolves in H2b.
  apply clusterBootstrap_evolves in H3 as (listing & Hdir & H3).
  apply (when_evolves _ _ [] ["oauth-openshift/ingress-certs-secret.yaml"]) in H4;
    [|intros; now apply addUserManifestFiles_evolves].
  apply (when_evolves _ _ vpnServerManifests vpnClientAssets) in H5.
  2:{ intros sa sb Hv. unfold openVPN in Hv.
      apply bind_Done in Hv as ([] & sc & Hv1 & Hv2).
      apply addManifestFiles_evolves in Hv1.
      apply addUserManifestFiles_evolves in Hv2.
      apply (evolves_cast _ _ (vpnServerManifests ++ []) _ ([] ++ vpnClientAssets));
        [apply app_nil_r|reflexivity|].
      eapply evolves_trans; eassumption. }
  apply (when_evolves _ _ [] ["registry/cluster-imageregistry-config.yaml"]) in H6;
    [|intros; now apply addUserManifestFiles_evolves].
  apply userManifestsBootstrapper_evolves in H7.
  apply addManifestFiles_evolves in H8.
  apply addManifestFiles_evolves in H.
  exists listing. split; [exact Hdir|].
  pose proof (evolves_trans _ _ _ _ _ _ _ H1 H2a) as T.
  pose proof (evolves_trans _ _ _ _ _ _ _ T H2b) as T2. clear T.
  pose proof (evolves_trans _ _ _ _ _ _ _ T2 H3) as T3. clear T2.
  pose proof (evolves_trans _ _ _ _ _ _ _ T3 H4) as T4. clear T3.
  pose proof (evolves_trans _ _ _ _ _ _ _ T4 H5) as T5. clear T4.
  pose proof (evolves_trans _ _ _ _ _ _ _ T5 H6) as T6. clear T5.
  pose proof T6 as (_ & Hf6 & Hu6 & Ho6).
  unfold rangedEntries in H7. rewrite Hf6, Hu6, Ho6 in H7.
  fold (rangedEntries st) in H7.
  pose proof (evolves_trans _ _ _ _ _ _ _ T6 H7) as T7. clear T6.
  pose proof (evolves_trans _ _ _ _ _ _ _ T7 H8) as T8. clear T7.
  pose proof (evolves_trans _ _ _ _ _ _ _ T8 H) as T9. clear T8.
  eapply evolves_cast; [| |exact T9].
  - unfold addedBySetup, addedBeforeRouter, registeredBySetup.
    destruct etcd_, vpn, externalOauth, includeRegistry; simpl;
      rewrite ?app_nil_r, <- ?app_assoc; simpl; reflexivity.
  - unfold registeredBySetup.
    destruct etcd_, vpn, externalOauth, includeRegistry; simpl;
      rewrite ?app_nil_r, <- ?app_assoc; simpl; reflexivity.
Qed.

End MethodFacts.

(** ** The naming transform *)

Lemma beforeFirstDot_cut (s : string) :
  s = beforeFirstDot s \/ exists rest, s = beforeFirstDot s +:+ "." +:+ rest.
Proof.
  induction s as [|ch s IH]; [now left|]. simpl.
  destruct (Ascii.eqb_spec ch ".") as [->|Hne].
  - right. now exists s.
  - destruct IH as [IH|[rest IH]].
    + left. f_equal. exact IH.
    + right. exists rest.
      change (String ch s = String ch (beforeFirstDot s +:+ "." +:+ rest)).
      f_equal. exact IH.
Qed.

Lemma beforeFirstDot_no_dot (s : string) :
  "."%char ∉ String.list_ascii_of_string (beforeFirstDot s).
Proof.
  induction s as [|ch s IH]; simpl; [apply not_elem_of_nil|].
  destruct (Ascii.eqb_spec ch ".") as [->|Hne]; simpl; [apply not_elem_of_nil|].
  apply not_elem_of_cons. split; [congruence|exact IH].
Qed.

Lemma underscoresToHyphens_no_underscore (s : string) :
  "_"%char ∉ String.list_ascii_of_string (underscoresToHyphens s).
Proof.
  induction s as [|ch s IH]; simpl; [apply not_elem_of_nil|].
  apply not_elem_of_cons. split; [|exact IH].
  destruct (Ascii.eqb_spec ch "_") as [->|Hne]; [discriminate|congruence].
Qed.

(** C5. [userConfigMapName] always returns a name: the prefix
    "user-manifest-" followed by the text before the first ['.'] of its
    input with every underscore turned into a hyphen.  This holds for
    every input, so in particular for every non-empty one without a path
    separator; the retained segment has no ['.'], the result of the
    replacement has no underscore, and the two examples of the
    specification come out as stated. *)
Theorem userConfigMapName_transform :
  (forall file : string,
     userConfigMapName file =
       Some ("user-manifest-" +:+ underscoresToHyphens (beforeFirstDot file)) /\
     (file = beforeFirstDot file \/
      (exists rest, file = beforeFirstDot file +:+ "." +:+ rest)) /\
     ("."%char ∉ String.list_ascii_of_string (beforeFirstDot file)) /\
     ("_"%char ∉ String.list_ascii_of_string (underscoresToHyphens (beforeFirstDot file)))) /\
  userConfigMapName "etcd_secret.yaml" = Some "user-manifest-etcd-secret" /\
  userConfigMapName "a.b.c" = Some "user-manifest-a".
Proof.
  split; [|split; reflexivity].
  intros file. split; [apply userConfigMapName_eq|].
  split; [apply beforeFirstDot_cut|].
  split; [apply beforeFirstDot_no_dot|apply underscoresToHyphens_no_underscore].
Qed.

(** C10. The derived ConfigMap name depends only on the text before the
    first ['.']: two identifiers with the same first segment get the same
    name, so "a.yaml" and "a.json" collide on "user-manifest-a", and an
    identifier that begins with ['.'] gets exactly "user-manifest-". *)
Theorem userConfigMapName_first_segment_only :
  (forall f g : string,
     beforeFirstDot f = beforeFirstDot g -> userConfigMapName f = userConfigMapName g) /\
  (userConfigMapName "a.yaml" = Some "user-manifest-a" /\
   userConfigMapName "a.json" = Some "user-manifest-a") /\
  (forall rest : string, userConfigMapName (String "." rest) = Some "user-manifest-").
Proof.
  split; [|split; [split; reflexivity|]].
  - intros f g H. now rewrite !userConfigMapName_eq, H.
  - intros rest. now rewrite userConfigMapName_eq.
Qed.

Lemma userConfigMapName_first_segment_only_witness :
  beforeFirstDot "a.yaml" = beforeFirstDot "a.json" /\
  userConfigMapName "a.yaml" = userConfigMapName "a.json".
Proof.
  split; [reflexivity|].
  apply (proj1 userConfigMapName_first_segment_only "a.yaml" "a.json").
  reflexivity.
Defined.

(** ** Patches *)

Lemma addPatch_missing {E : Env} (st : Machine E) (baseName patch : string) :
  OMap.get baseName (out st) = None ->
  addPatch baseName patch st = Panic PatchTargetMissing.
Proof.
  intros H. unfold addPatch, bind, this. unfold out in H. now rewrite H.
Qed.

Lemma kubeAPIServer_missing {E : Env} (st : Machine E) :
  OMap.get "kube-apiserver-deployment.yaml" (out st) = None ->
  kubeAPIServer st = Panic PatchTargetMissing.
Proof.
  intros H. unfold kubeAPIServer. apply bind_abort. now apply addPatch_missing.
Qed.

(** A setup on a context without the API server deployment never
    completes, whatever the flags: no feature group that runs before the
    patch adds the manifest it needs. *)
Lemma setupManifests_needs_deployment {E : Env} (st : Machine E)
    (etcd_ vpn externalOauth includeRegistry : bool) :
  OMap.get "kube-apiserver-deployment.yaml" (out st) = None ->
  exists msg, setupManifests etcd_ vpn externalOauth includeRegistry st = Panic msg.
Proof.
  intros H. unfold setupManifests.
  destruct (when etcd_ etcd st) as [[[] st1]|msg] eqn:H1.
  - exists PatchTargetMissing. rewrite (bind_step _ _ _ _ _ H1).
    apply bind_abort, kubeAPIServer_missing.
    apply (when_evolves _ _ etcdManifests []) in H1;
      [|intros; now apply addManifestFiles_evolves].
    destruct H1 as (Hn & _).
    apply OMap_get_None. apply OMap_get_None in H.
    fold (names st1). fold (names st) in H. rewrite Hn, elem_of_addNames.
    intros [Hin|Hin]; [contradiction|].
    destruct etcd_; simpl in Hin; not_listed Hin.
  - exists msg. now apply bind_abort.
Qed.

(** With the render context of the specification, in which a patch
    needs its base in the output, no call of [RenderClusterManifests]
    returns success: the context it creates is still without the API
    server deployment when the API server group patches it. *)
Lemma RenderClusterManifests_aborts {E : Env} (p : ClusterParams E)
    (pullSecretFile pkiDir dir : string)
    (etcd_ vpn externalOauth includeRegistry : bool) (rt : Runtime E) :
  snd (RenderClusterManifests p pullSecretFile pkiDir dir
         etcd_ vpn externalOauth includeRegistry rt) <> Return None.
Proof.
  unfold RenderClusterManifests.
  destruct (GetReleaseInfo E _ _ _) as [info|err]; [|discriminate].
  match goal with
  | |- context [setupManifests _ _ _ _ ?s] =>
      destruct (setupManifests_needs_deployment s etcd_ vpn externalOauth
                  includeRegistry eq_refl) as [msg ->]
  end.
  discriminate.
Qed.

(** C2. [addPatch] on a base name that the output does not hold fails
    with [PatchTargetMissing].  The API server group starts with such a
    patch of "kube-apiserver-deployment.yaml", so it fails in the same way
    when that manifest is absent, and so does a setup that begins with
    it (no etcd group before it). *)
Theorem addPatch_target_missing (E : Env) (st : Machine E) :
  (forall baseName patchAssetPath : string,
     OMap.get baseName (out st) = None ->
     addPatch baseName patchAssetPath st = Panic PatchTargetMissing) /\
  (OMap.get "kube-apiserver-deployment.yaml" (out st) = None ->
   kubeAPIServer st = Panic PatchTargetMissing /\
   forall vpn externalOauth includeRegistry : bool,
     setupManifests false vpn externalOauth includeRegistry st =
     Panic PatchTargetMissing).
Proof.
  split.
  - intros baseName patch. apply addPatch_missing.
  - intros H. split; [now apply kubeAPIServer_missing|].
    intros vpn externalOauth includeRegistry. unfold setupManifests.
    simpl when. rewrite (bind_step _ _ _ tt st eq_refl).
    apply bind_abort. now apply kubeAPIServer_missing.
Qed.

Lemma addPatch_target_missing_witness :
  OMap.get "kube-apiserver-deployment.yaml" (out (Sample.created "" Sample.inOrder)) = None /\
  kubeAPIServer (Sample.created "" Sample.inOrder) = Panic PatchTargetMissing.
Proof.
  split; [reflexivity|].
  apply (proj2 (addPatch_target_missing _ (Sample.created "" Sample.inOrder))).
  reflexivity.
Defined.

(** C9. A patch is appended as text: when the base is present with
    content [current] and the patch asset expands to [text], [addPatch]
    completes and leaves exactly [current] followed by [text] under the
    base name; no other entry changes. *)
Theorem addPatch_appends (E : Env) (st : Machine E)
    (baseName patchAssetPath current text : string) (g : Rng E) :
  OMap.get baseName (out st) = Some current ->
  execute E (funcs (embedded (self st))) (ParamsData (params (embedded (self st))))
    patchAssetPath (rng (runtime st)) = (Ok text, g) ->
  exists st',
    addPatch baseName patchAssetPath st = Done (tt, st') /\
    OMap.get baseName (out st') = Some (current +:+ text) /\
    forall other, baseName <> other -> OMap.get other (out st') = OMap.get other (out st).
Proof.
  intros Hget Hexec.
  eexists. split; [|split].
  - unfold addPatch, bind, this at 1. unfold out in Hget. rewrite Hget.
    unfold substituteParams. rewrite Hexec. reflexivity.
  - unfold out. simpl. apply OMap_get_set_eq.
  - intros other Hne. unfold out. simpl. now apply OMap_get_set_ne.
Qed.

Lemma addPatch_appends_witness :
  exists st',
    addPatch "kube-apiserver-deployment.yaml"
      "kube-apiserver/kube-apiserver-deployment-patch.yaml"
      (Sample.seeded Sample.inOrder) = Done (tt, st') /\
    OMap.get "kube-apiserver-deployment.yaml" (out st') =
      Some ("replicas: 1" +:+ "replicas: 3").
Proof.
  destruct (addPatch_appends (Sample.env "") (Sample.seeded Sample.inOrder)
              "kube-apiserver-deployment.yaml"
              "kube-apiserver/kube-apiserver-deployment-patch.yaml"
              "replicas: 1" "replicas: 3" [ "k3x9" ] eq_refl eq_refl)
    as (st' & Hrun & Hget & _).
  exists st'. split; assumption.
Defined.

(** ** Uniqueness of names *)

Lemma OMap_filter_absent (k : string) (m : list (string * string)) :
  k ∉ OMap.keys m -> filter (fun e => fst e = k) m = [].
Proof.
  induction m as [|[k' v'] m IH]; intros H; [reflexivity|].
  simpl in H. apply not_elem_of_cons in H as [Hne Hnin].
  rewrite filter_cons_False; [now apply IH|]. simpl. congruence.
Qed.

Lemma OMap_filter_unique (k v : string) (m : list (string * string)) :
  NoDup (OMap.keys m) -> OMap.get k m = Some v ->
  filter (fun e => fst e = k) m = [(k, v)].
Proof.
  induction m as [|[k' v'] m IH]; intros Hnd Hget; [discriminate|].
  simpl in Hnd, Hget. apply NoDup_cons in Hnd as [Hnin Hnd].
  destruct (String.eqb_spec k k') as [->|Hne].
  - injection Hget as ->.
    rewrite filter_cons_True by reflexivity.
    now rewrite OMap_filter_absent.
  - rewrite filter_cons_False by (simpl; congruence). now apply IH.
Qed.

Lemma setupManifests_NoDup {E : Env} (st st' : Machine E)
    (etcd_ vpn externalOauth includeRegistry : bool) :
  NoDup (names st) ->
  setupManifests etcd_ vpn externalOauth includeRegistry st = Done (tt, st') ->
  NoDup (names st').
Proof.
  intros Hnd H. apply setupManifests_evolves in H as (listing & _ & Hn & _).
  rewrite Hn. now apply NoDup_addNames.
Qed.

(** C7. No two entries of the output share a name: whatever
    [RenderClusterManifests] hands out has distinct names, and a setup
    keeps the names of a context distinct.  Adding under a name twice
    leaves what adding the second content alone leaves: one entry, with
    the second content.  The user manifest map behaves in the same way
    under [addUserManifest]. *)
Theorem output_names_unique (E : Env) :
  (forall (p : ClusterParams E) (pullSecretFile pkiDir dir : string)
          (etcd_ vpn externalOauth includeRegistry : bool) (rt : Runtime E),
     NoDup (OMap.keys (fst (RenderClusterManifests p pullSecretFile pkiDir dir
                              etcd_ vpn externalOauth includeRegistry rt)))) /\
  (forall (st st' : Machine E) (etcd_ vpn externalOauth includeRegistry : bool),
     NoDup (names st) ->
     setupManifests etcd_ vpn externalOauth includeRegistry st = Done (tt, st') ->
     NoDup (names st')) /\
  (forall (st : Machine E) (name a b : string),
     exists st',
       (addManifest name a *> addManifest name b) st = Done (tt, st') /\
       out st' = OMap.set name b (out st) /\
       OMap.get name (out st') = Some b /\
       (NoDup (names st) -> filter (fun e => fst e = name) (out st') = [(name, b)])) /\
  (forall (st : Machine E) (name a b : string),
     exists st',
       (addUserManifest name a *> addUserManifest name b) st = Done (tt, st') /\
       userManifests (self st') = <[name := b]> (userManifests (self st)) /\
       userManifests (self st') !! name = Some b).
Proof.
  split; [|split; [|split]].
  - intros p pullSecretFile pkiDir dir etcd_ vpn externalOauth includeRegistry rt.
    unfold RenderClusterManifests.
    destruct (GetReleaseInfo E _ _ _) as [info|e]; [|apply NoDup_nil_2].
    destruct (setupManifests _ _ _ _ _) as [[[] st']|msg] eqn:H; [|apply NoDup_nil_2].
    simpl. apply setupManifests_NoDup in H; [exact H|apply NoDup_nil_2].
  - intros st st' etcd_ vpn externalOauth includeRegistry. apply setupManifests_NoDup.
  - intros st name a b. eexists. split; [reflexivity|].
    assert (Hout : out (onSelf (fun c => setManifests
                     (OMap.set name b (manifests (embedded c))) c)
                     (onSelf (fun c => setManifests
                        (OMap.set name a (manifests (embedded c))) c) st))
                   = OMap.set name b (out st)).
    { unfold out. simpl. apply OMap_set_set. }
    split; [exact Hout|]. rewrite Hout.
    split; [apply OMap_get_set_eq|].
    intros Hnd. apply OMap_filter_unique; [|apply OMap_get_set_eq].
    rewrite OMap_keys_set. now apply NoDup_addName.
  - intros st name a b. eexists. split; [reflexivity|]. simpl.
    split; [apply insert_insert_eq|].
    rewrite insert_insert_eq. apply lookup_insert_eq.
Qed.

Lemma output_names_unique_witness :
  exists st',
    (addManifest "x" "a" *> addManifest "x" "b") (Sample.created "" Sample.inOrder)
      = Done (tt, st') /\
    filter (fun e => fst e = "x") (out st') = [("x", "b")].
Proof.
  destruct (proj1 (proj2 (proj2 (output_names_unique (Sample.env ""))))
              (Sample.created "" Sample.inOrder) "x" "a" "b")
    as (st' & Hrun & _ & _ & Hone).
  exists st'. split; [exact Hrun|]. apply Hone. apply NoDup_nil_2.
Defined.

(** ** The order of a setup *)

Lemma bind_ext {E : Env} {A B} (m : M (Machine E) A) (k k' : A -> M (Machine E) B)
    (st : Machine E) :
  (forall a st1, k a st1 = k' a st1) -> bind m k st = bind m k' st.
Proof. intros H. unfold bind. destruct (m st) as [[a st1]|msg]; [apply H|reflexivity]. Qed.

Lemma bind_ret_r {E : Env} (m : M (Machine E) unit) (st : Machine E) :
  bind m (fun _ => ret tt) st = m st.
Proof. unfold bind, ret. now destruct (m st) as [[[] st1]|msg]. Qed.

Lemma bind_ret_l {E : Env} {A B} (a : A) (k : A -> M (Machine E) B) (st : Machine E) :
  bind (ret a) k st = k a st.
Proof. reflexivity. Qed.

Lemma setupManifests_sequence {E : Env} (etcd_ vpn externalOauth includeRegistry : bool)
    (st : Machine E) :
  setupManifests etcd_ vpn externalOauth includeRegistry st =
  sequence (groups etcd_ vpn externalOauth includeRegistry) st.
Proof.
  unfold setupManifests, groups.
  unfold sequence;
  destruct etcd_, vpn, externalOauth, includeRegistry; cbn [when app forEach];
    repeat first [ rewrite bind_ret_l | apply bind_ext; intros [] ? ];
    symmetry; apply bind_ret_r.
Qed.

Lemma elem_of_map {A B : Type} (f : A -> B) (l : list A) (y : B) :
  y ∈ map f l <-> exists x, y = f x /\ x ∈ l.
Proof. exact (list_elem_of_fmap f l y). Qed.

Lemma wrappedName_head (file : string) :
  wrappedName file = String "u" ("ser-manifest-" +:+ Go.Base file).
Proof. reflexivity. Qed.

Lemma entryName_head (entry : string * string) :
  entryName entry = String "u" ("ser-manifest-" +:+ fst entry).
Proof. reflexivity. Qed.

(** A literal name that is not a wrapped one. *)
Ltac not_wrapped H :=
  apply elem_of_map in H as (? & H & _);
  first [ rewrite wrappedName_head in H | rewrite entryName_head in H ];
  discriminate H.

Lemma router_names_fresh (etcd_ vpn : bool) (fs : list string)
    (entries : list (string * string)) (x : string) :
  x ∈ routerProxyManifests ++ [ operatorManifest ] ->
  x ∉ addedBeforeRouter etcd_ vpn fs entries.
Proof.
  intros Hx Hin. unfold addedBeforeRouter, addedByBootstrapper in Hin.
  rewrite !elem_of_app in Hin.
  simpl in Hx.
  repeat (apply elem_of_cons in Hx as [->|Hx];
          [destruct Hin as [Hin|[Hin|[Hin|[Hin|[Hin|Hin]]]]];
           [destruct etcd_; not_listed Hin
           |not_listed Hin
           |destruct vpn; not_listed Hin
           |not_listed Hin
           |not_wrapped Hin
           |not_wrapped Hin]|]).
  now apply elem_of_nil in Hx.
Qed.

Lemma router_names_NoDup : NoDup (routerProxyManifests ++ [ operatorManifest ]).
Proof.
  simpl. repeat (apply NoDup_cons; split; [intros Hin; not_listed Hin|]).
  apply NoDup_nil_2.
Qed.

(** C3. A setup runs its feature groups in the order of the
    specification, whatever the flags.  When it completes on a context
    that does not yet hold the router proxy and operator manifests, the
    output ends with the five router proxy manifests followed by the
    operator deployment, which is the last entry, and every manifest
    wrapped from a cluster-bootstrap asset comes before them. *)
Theorem setup_order (E : Env) (etcd_ vpn externalOauth includeRegistry : bool)
    (st : Machine E) :
  setupManifests etcd_ vpn externalOauth includeRegistry st =
    sequence (groups etcd_ vpn externalOauth includeRegistry) st /\
  forall st',
    setupManifests etcd_ vpn externalOauth includeRegistry st = Done (tt, st') ->
    (forall n, n ∈ routerProxyManifests ++ [ operatorManifest ] -> n ∉ names st) ->
    exists listing before,
      AssetDir E "cluster-bootstrap" = Ok listing /\
      names st' = before ++ routerProxyManifests ++ [ operatorManifest ] /\
      (forall m, m ∈ listing -> wrappedName ("cluster-bootstrap/" +:+ m) ∈ before) /\
      last (names st') = Some operatorManifest.
Proof.
  split; [apply setupManifests_sequence|].
  intros st' H Hfresh.
  apply setupManifests_evolves in H as (listing & Hdir & Hn & _).
  unfold addedBySetup in Hn. rewrite addNames_app in Hn.
  rewrite addNames_fresh in Hn.
  - eexists listing, _. split; [exact Hdir|]. split; [exact Hn|]. split.
    + intros m Hm. apply elem_of_addNames. right.
      unfold addedBeforeRouter, addedByBootstrapper, registeredBySetup.
      rewrite !elem_of_app. do 4 right. left.
      apply elem_of_map. eexists. split; [reflexivity|].
      rewrite !elem_of_app. right. left.
      apply elem_of_map. eauto.
    + rewrite Hn. unfold routerProxyManifests.
      rewrite (app_assoc _ _ [operatorManifest]). apply last_snoc.
  - apply router_names_NoDup.
  - intros x Hx Hin. apply elem_of_addNames in Hin as [Hin|Hin].
    + now apply (Hfresh x).
    + eapply router_names_fresh; eassumption.
Qed.

Lemma setup_order_witness :
  exists st' listing before,
    setupManifests false true false false (Sample.seeded Sample.inOrder) = Done (tt, st') /\
    AssetDir (Sample.env "") "cluster-bootstrap" = Ok listing /\
    names st' = before ++ routerProxyManifests ++ [ operatorManifest ] /\
    last (names st') = Some operatorManifest.
Proof.
  destruct (setupManifests false true false false (Sample.seeded Sample.inOrder))
    as [[[] st']|msg] eqn:Hrun; [|vm_compute in Hrun; discriminate Hrun].
  destruct (proj2 (setup_order (Sample.env "") false true false false
                     (Sample.seeded Sample.inOrder)) st' Hrun)
    as (listing & before & Hdir & Hn & _ & Hlast).
  - intros n Hn Hin. apply list_elem_of_singleton in Hin. subst n. simpl in Hn.
    not_listed Hn.
  - exists st', listing, before. repeat split; assumption.
Defined.

(** ** Flag gating *)

Lemma addedBySetup_cases (etcd_ vpn : bool) (fs : list string)
    (entries : list (string * string)) (x : string) :
  x ∈ addedBySetup etcd_ vpn fs entries ->
  x ∈ (if etcd_ then etcdManifests else []) ++
      [ "kube-apiserver/kube-apiserver-vpnclient-config.yaml" ] ++
      (if vpn then vpnServerManifests else []) ++
      [ bootstrapperPod ] ++ routerProxyManifests ++ [ operatorManifest ] \/
  (exists f, x = wrappedName f /\ f ∈ fs) \/
  (exists entry, x = entryName entry /\ entry ∈ entries).
Proof.
  unfold addedBySetup, addedBeforeRouter, addedByBootstrapper.
  rewrite !elem_of_app, !elem_of_map. tauto.
Qed.

Lemma registeredBySetup_cases (vpn externalOauth includeRegistry : bool)
    (listing : list string) (f : string) :
  f ∈ registeredBySetup vpn externalOauth includeRegistry listing ->
  (exists m, f = "cluster-bootstrap/" +:+ m /\ m ∈ listing) \/
  f ∈ (if externalOauth then [ "oauth-openshift/ingress-certs-secret.yaml" ] else []) ++
      (if vpn then vpnClientAssets else []) ++
      (if includeRegistry then [ "registry/cluster-imageregistry-config.yaml" ] else []).
Proof.
  unfold registeredBySetup. rewrite !elem_of_app, !elem_of_map. tauto.
Qed.

Lemma append_inj (p a b : string) : p +:+ a = p +:+ b -> a = b.
Proof.
  induction p as [|ch p IH]; intros H; [exact H|].
  apply IH. now injection H.
Qed.

(** Every literal of a list satisfies a property that computes. *)
Ltac each_literal H :=
  repeat (apply elem_of_cons in H as [->|H]; [reflexivity|]);
  now apply elem_of_nil in H.

(** C6. The flags gate the groups.  For a setup that completes: without
    the etcd flag it adds no name under "etcd/"; with the VPN flag the
    four VPN server manifests are in the output, and the two VPN client
    assets are registered as user manifest files and their wrapped
    manifests are in the output; without the VPN flag it adds no name
    under "openvpn/", registers no asset under "openvpn/", and the
    wrapped manifest of a VPN client asset is not in the output unless
    it was there before or another user manifest carries the same base
    name. *)
Theorem flags_gate_groups (E : Env) (etcd_ vpn externalOauth includeRegistry : bool)
    (st st' : Machine E) :
  setupManifests etcd_ vpn externalOauth includeRegistry st = Done (tt, st') ->
  (etcd_ = false ->
   (forall n, n ∈ names st -> String.prefix "etcd/" n = false) ->
   forall n, n ∈ names st' -> String.prefix "etcd/" n = false) /\
  (vpn = true ->
   (forall n, n ∈ vpnServerManifests -> n ∈ names st') /\
   (forall f, f ∈ vpnClientAssets -> f ∈ files st' /\ wrappedName f ∈ names st')) /\
  (vpn = false ->
   ((forall n, n ∈ names st -> String.prefix "openvpn/" n = false) ->
    forall n, n ∈ names st' -> String.prefix "openvpn/" n = false) /\
   ((forall f, f ∈ files st -> String.prefix "openvpn/" f = false) ->
    forall f, f ∈ files st' -> String.prefix "openvpn/" f = false) /\
   (forall client, client ∈ vpnClientAssets ->
      wrappedName client ∉ names st ->
      (forall f, f ∈ files st -> Go.Base f <> Go.Base client) ->
      (forall entry, entry ∈ rangedEntries st -> fst entry <> Go.Base client) ->
      (forall listing m, AssetDir E "cluster-bootstrap" = Ok listing -> m ∈ listing ->
                         Go.Base ("cluster-bootstrap/" +:+ m) <> Go.Base client) ->
      wrappedName client ∉ names st')).
Proof.
  intros H. apply setupManifests_evolves in H as (listing & Hdir & Hn & Hf & _).
  split; [|split].
  - intros -> Hinit n Hin. rewrite Hn in Hin.
    apply elem_of_addNames in Hin as [Hin|Hin]; [now apply Hinit|].
    apply addedBySetup_cases in Hin as [Hin|[(f & -> & _)|(entry & -> & _)]];
      [|reflexivity|reflexivity].
    destruct vpn; simpl in Hin; each_literal Hin.
  - intros ->. split.
    + intros n Hin. rewrite Hn. apply elem_of_addNames. right.
      unfold addedBySetup, addedBeforeRouter. rewrite !elem_of_app. tauto.
    + intros f Hin. split.
      * rewrite Hf. unfold registeredBySetup. rewrite !elem_of_app. tauto.
      * rewrite Hn. apply elem_of_addNames. right.
        unfold addedBySetup, addedBeforeRouter, addedByBootstrapper, registeredBySetup.
        rewrite !elem_of_app, !elem_of_map. left. do 3 right. right. left.
        exists f. split; [reflexivity|]. rewrite !elem_of_app. tauto.
  - intros ->. split; [|split].
    + intros Hinit n Hin. rewrite Hn in Hin.
      apply elem_of_addNames in Hin as [Hin|Hin]; [now apply Hinit|].
      apply addedBySetup_cases in Hin as [Hin|[(f & -> & _)|(entry & -> & _)]];
        [|reflexivity|reflexivity].
      destruct etcd_; simpl in Hin; each_literal Hin.
    + intros Hinit f Hin. rewrite Hf in Hin.
      apply elem_of_app in Hin as [Hin|Hin]; [now apply Hinit|].
      apply registeredBySetup_cases in Hin as [(m & -> & _)|Hin]; [reflexivity|].
      destruct externalOauth, includeRegistry; simpl in Hin; each_literal Hin.
    + intros client Hclient Hinit Hfiles Hentries Hlisting Hin.
      rewrite Hn in Hin.
      apply elem_of_addNames in Hin as [Hin|Hin]; [contradiction|].
      apply addedBySetup_cases in Hin as [Hin|[(f & Heq & Hfs)|(entry & Heq & Hes)]].
      * unfold vpnClientAssets in Hclient.
        repeat (apply elem_of_cons in Hclient as [->|Hclient];
                [vm_compute in Hin; destruct etcd_; not_listed Hin|]).
        now apply elem_of_nil in Hclient.
      * apply append_inj in Heq.
        apply elem_of_app in Hfs as [Hfs|Hfs]; [now apply (Hfiles f)|].
        apply registeredBySetup_cases in Hfs as [(m & -> & Hm)|Hfs].
        -- now apply (Hlisting listing m).
        -- unfold vpnClientAssets in Hclient.
           repeat (apply elem_of_cons in Hclient as [->|Hclient];
                   [destruct externalOauth, includeRegistry; simpl in Hfs;
                    repeat (apply elem_of_cons in Hfs as [->|Hfs];
                            [vm_compute in Heq; discriminate Heq|]);
                    now apply elem_of_nil in Hfs|]).
           now apply elem_of_nil in Hclient.
      * apply append_inj in Heq. now apply (Hentries entry).
Qed.

Lemma flags_gate_groups_witness :
  (exists st',
     setupManifests false true false false (Sample.seeded Sample.inOrder) = Done (tt, st') /\
     (forall n, n ∈ names st' -> String.prefix "etcd/" n = false) /\
     (forall n, n ∈ vpnServerManifests -> n ∈ names st') /\
     (forall f, f ∈ vpnClientAssets -> wrappedName f ∈ names st')) /\
  (exists st',
     setupManifests true false false false (Sample.seeded Sample.inOrder) = Done (tt, st') /\
     (forall n, n ∈ names st' -> String.prefix "openvpn/" n = false) /\
     (forall f, f ∈ vpnClientAssets -> wrappedName f ∉ names st')).
Proof.
  split.
  - destruct (setupManifests false true false false (Sample.seeded Sample.inOrder))
      as [[[] st']|msg] eqn:Hrun; [|vm_compute in Hrun; discriminate Hrun].
    destruct (flags_gate_groups (Sample.env "") false true false false _ _ Hrun)
      as (Hetcd & Hvpn & _).
    destruct (Hvpn eq_refl) as [Hserver Hclient].
    exists st'. repeat split.
    + apply (Hetcd eq_refl). intros n Hn.
      apply list_elem_of_singleton in Hn. now subst n.
    + exact Hserver.
    + intros f Hf. now apply Hclient.
  - destruct (setupManifests true false false false (Sample.seeded Sample.inOrder))
      as [[[] st']|msg] eqn:Hrun; [|vm_compute in Hrun; discriminate Hrun].
    destruct (flags_gate_groups (Sample.env "") true false false false _ _ Hrun)
      as (_ & _ & Hvpn).
    destruct (Hvpn eq_refl) as (Hnames & _ & Hclient).
    exists st'. repeat split.
    + apply Hnames. intros n Hn.
      apply list_elem_of_singleton in Hn. now subst n.
    + intros f Hf. apply (Hclient f Hf).
      * intros Hin. apply list_elem_of_singleton in Hin.
        unfold vpnClientAssets in Hf.
        repeat (apply elem_of_cons in Hf as [->|Hf]; [discriminate Hin|]).
        now apply elem_of_nil in Hf.
      * intros f' Hf'. now apply elem_of_nil in Hf'.
      * intros entry Hentry. now apply elem_of_nil in Hentry.
      * intros listing m Hdir Hm. injection Hdir as <-.
        unfold vpnClientAssets in Hf.
        repeat (apply elem_of_cons in Hf as [->|Hf];
                [repeat (apply elem_of_cons in Hm as [->|Hm]; [discriminate|]);
                 now apply elem_of_nil in Hm|]).
        now apply elem_of_nil in Hf.
Defined.

(** ** The bootstrapper *)

Section Loops.

Context {E : Env}.

Implicit Types (st : Machine E).

Lemma bind_assoc {A B C} (m : M (Machine E) A) (k : A -> M (Machine E) B)
    (k' : B -> M (Machine E) C) st :
  bind (bind m k) k' st = bind m (fun a => bind (k a) k') st.
Proof. unfold bind. now destruct (m st) as [[a st1]|msg]. Qed.

Lemma bind_ext2 {A B} (m m' : M (Machine E) A) (k k' : A -> M (Machine E) B) st :
  m st = m' st -> (forall a st1, k a st1 = k' a st1) -> bind m k st = bind m' k' st.
Proof.
  intros Hm Hk. unfold bind. rewrite Hm.
  destruct (m' st) as [[a st1]|msg]; [apply Hk|reflexivity].
Qed.

Lemma forEach_app {A} (l1 l2 : list A) (f : A -> M (Machine E) unit) st :
  forEach (l1 ++ l2) f st = (forEach l1 f *> forEach l2 f) st.
Proof.
  revert st. induction l1 as [|x l1 IH]; intros st; [reflexivity|].
  cbn [app forEach]. rewrite bind_assoc. apply bind_ext. intros [] st1. apply IH.
Qed.

Lemma forEach_first_failure {A} (done rest : list A) (x : A)
    (f : A -> M (Machine E) unit) st st1 msg :
  forEach done f st = Done (tt, st1) -> f x st1 = Panic msg ->
  forEach (done ++ x :: rest) f st = Panic msg.
Proof.
  intros Hdone Hx. rewrite forEach_app. rewrite (bind_step _ _ _ _ _ Hdone).
  cbn [forEach]. now apply bind_abort.
Qed.

Lemma addManifestFiles_forEach (l : list string) st :
  addManifestFiles l st = forEach l addManifestFile st.
Proof.
  revert st. induction l as [|name l IH]; intros st; [reflexivity|].
  cbn [addManifestFiles forEach]. unfold addManifestFile.
  rewrite !bind_assoc. apply bind_ext. intros c st0.
  rewrite bind_assoc. apply bind_ext. intros [content|e] st1.
  - apply bind_ext. intros [] st2. apply IH.
  - reflexivity.
Qed.

Lemma bootstrapFiles_forEach (fs : list string) st :
  bootstrapFiles fs st = forEach fs wrapFile st.
Proof.
  revert st. induction fs as [|file fs IH]; intros st; [reflexivity|].
  cbn [bootstrapFiles forEach]. unfold wrapFile, wrapUserManifest.
  rewrite !bind_assoc. apply bind_ext. intros c st0.
  rewrite bind_assoc. apply bind_ext. intros [data|e] st1; [|reflexivity].
  rewrite !bind_assoc. apply bind_ext. intros cm st2.
  rewrite bind_assoc. apply bind_ext. intros [manifest|e] st3; [|reflexivity].
  apply bind_ext. intros [] st4. apply IH.
Qed.

Lemma bootstrapEntries_forEach (es : list (string * string)) st :
  bootstrapEntries es st = forEach es wrapEntry st.
Proof.
  revert st. induction es as [|[name data] es IH]; intros st; [reflexivity|].
  cbn [bootstrapEntries forEach]. unfold wrapEntry, wrapUserManifest. cbn [fst snd].
  rewrite !bind_assoc. apply bind_ext. intros cm st2.
  rewrite bind_assoc. apply bind_ext. intros [manifest|e] st3; [|reflexivity].
  apply bind_ext. intros [] st4. apply IH.
Qed.

Lemma userManifestsBootstrapper_pipeline st :
  userManifestsBootstrapper st = bootstrapperPipeline st.
Proof.
  unfold userManifestsBootstrapper, bootstrapperPipeline.
  apply bind_ext. intros [] st1.
  apply bind_ext2.
  - apply bootstrapFiles_forEach.
  - intros [] st2. apply bootstrapEntries_forEach.
Qed.

End Loops.

(** C4. The bootstrapper is the pipeline of the specification: it adds
    the bootstrapper pod manifest first; then, for every user manifest
    file in order, it substitutes the asset against the parameters of the
    context, derives the ConfigMap name from the base file name, expands
    the wrapper template on the data and that name and adds the result
    under "user-manifest-" followed by the base file name; then it wraps
    every entry of the user manifest map in the same way under the
    entry's own name.  When it completes, the names it has inserted are
    exactly these, in this order. *)
Theorem userManifestsBootstrapper_wraps (E : Env) (st : Machine E) :
  userManifestsBootstrapper st = bootstrapperPipeline st /\
  forall st',
    userManifestsBootstrapper st = Done (tt, st') ->
    names st' =
      addNames (names st)
        ([ bootstrapperPod ] ++
         map (fun file => "user-manifest-" +:+ Go.Base file) (files st) ++
         map (fun entry => "user-manifest-" +:+ fst entry) (rangedEntries st)) /\
    bootstrapperPod ∈ names st' /\
    (forall file, file ∈ files st -> "user-manifest-" +:+ Go.Base file ∈ names st') /\
    (forall entry, entry ∈ rangedEntries st -> "user-manifest-" +:+ fst entry ∈ names st').
Proof.
  split; [apply userManifestsBootstrapper_pipeline|].
  intros st' H. apply userManifestsBootstrapper_evolves in H as (Hn & _).
  unfold addedByBootstrapper in Hn. split; [exact Hn|].
  rewrite Hn. split; [|split].
  - apply elem_of_addNames. right. rewrite !elem_of_app, list_elem_of_singleton. tauto.
  - intros file Hfile. apply elem_of_addNames. right.
    rewrite !elem_of_app, !elem_of_map. right. left. now exists file.
  - intros entry Hentry. apply elem_of_addNames. right.
    rewrite !elem_of_app, !elem_of_map. right. right. now exists entry.
Qed.

Lemma userManifestsBootstrapper_wraps_witness :
  exists st',
    userManifestsBootstrapper (Sample.withUserFiles Sample.inOrder) = Done (tt, st') /\
    names st' = [ "kube-apiserver-deployment.yaml";
                  "user-manifests-bootstrapper/user-manifests-bootstrapper-pod.yaml";
                  "user-manifest-cluster-imageregistry-config.yaml";
                  "user-manifest-ca_bundle.crt";
                  "user-manifest-pull-secret" ].
Proof.
  destruct (userManifestsBootstrapper (Sample.withUserFiles Sample.inOrder))
    as [[[] st']|msg] eqn:Hrun; [|vm_compute in Hrun; discriminate Hrun].
  destruct (proj2 (userManifestsBootstrapper_wraps (Sample.env "")
                     (Sample.withUserFiles Sample.inOrder)) st' Hrun) as (Hn & _).
  exists st'. split; [reflexivity|]. rewrite Hn. vm_compute. reflexivity.
Defined.

(** ** Failures *)

Section Failures.

Context {E : Env}.

Implicit Types (st : Machine E).

Lemma substituteParams_eq (data : TemplateData (ClusterParams E)) (f : string) st
    (r : result string) (g : Rng E) :
  execute E (funcs (embedded (self st))) data f (rng (runtime st)) = (r, g) ->
  substituteParams data f st = Done (r, setRng g st).
Proof. intros H. unfold substituteParams. now rewrite H. Qed.

Lemma addManifestFile_fails (name : string) st (err : error) (g : Rng E) :
  execute E (funcs (embedded (self st))) (ParamsData (params (embedded (self st))))
    name (rng (runtime st)) = (Err err, g) ->
  addManifestFile name st = Panic err.
Proof.
  intros H. unfold addManifestFile, bind, this.
  now rewrite (substituteParams_eq _ _ _ _ _ H).
Qed.

Lemma addPatch_fails (baseName patch current : string) st (err : error) (g : Rng E) :
  OMap.get baseName (out st) = Some current ->
  execute E (funcs (embedded (self st))) (ParamsData (params (embedded (self st))))
    patch (rng (runtime st)) = (Err err, g) ->
  addPatch baseName patch st = Panic err.
Proof.
  intros Hget H. unfold addPatch, bind, this. unfold out in Hget. rewrite Hget.
  now rewrite (substituteParams_eq _ _ _ _ _ H).
Qed.

Lemma wrapUserManifest_fails (outputName source data : string) st (err : error)
    (g : Rng E) :
  execute E (funcs (embedded (self st)))
    (MapData {[ "data" := data;
                "name" := "user-manifest-" +:+ underscoresToHyphens (beforeFirstDot source) ]})
    wrapperTemplate (rng (runtime st)) = (Err err, g) ->
  wrapUserManifest outputName source data st = Panic err.
Proof.
  intros H. unfold wrapUserManifest.
  rewrite (bind_step _ _ _ _ _ (configMapName_run source st)).
  now rewrite (bind_step _ _ _ _ _ (substituteParams_eq _ _ _ _ _ H)).
Qed.

Lemma wrapFile_fails (file : string) st (err : error) :
  (exists g, execute E (funcs (embedded (self st)))
               (ParamsData (params (embedded (self st)))) file (rng (runtime st))
             = (Err err, g)) \/
  (exists data g1 g2,
     execute E (funcs (embedded (self st)))
       (ParamsData (params (embedded (self st)))) file (rng (runtime st))
     = (Ok data, g1) /\
     execute E (funcs (embedded (self st)))
       (MapData {[ "data" := data;
                   "name" := "user-manifest-" +:+
                             underscoresToHyphens (beforeFirstDot (Go.Base file)) ]})
       wrapperTemplate g1 = (Err err, g2)) ->
  wrapFile file st = Panic err.
Proof.
  intros [(g & H)|(data & g1 & g2 & H1 & H2)]; unfold wrapFile, bind at 1, this.
  - now rewrite (bind_step _ _ _ _ _ (substituteParams_eq _ _ _ _ _ H)).
  - rewrite (bind_step _ _ _ _ _ (substituteParams_eq _ _ _ _ _ H1)).
    now apply (wrapUserManifest_fails _ _ _ (setRng g1 st) err g2).
Qed.

End Failures.

(** C1. The pass fails fast.  A release resolution failure is returned
    to the caller as it is, before any context exists.  Once the context
    exists, the first feature group that fails ends the call with that
    failure, as a panic carrying its message, whatever groups would
    follow; and in every case in which the call does not return success
    no manifest is handed out.  Inside a group the first failure is the
    one reported: a substitution that fails in [addManifestFiles], a
    patch whose target is missing or whose asset does not expand, and a
    user manifest whose data or whose wrapping does not expand, each
    stops the method at once with its own error. *)
Theorem render_fails_fast (E : Env) :
  (forall (p : ClusterParams E) (pullSecretFile pkiDir dir : string)
          (etcd_ vpn externalOauth includeRegistry : bool) (rt : Runtime E),
     let r := RenderClusterManifests p pullSecretFile pkiDir dir
                etcd_ vpn externalOauth includeRegistry rt in
     (forall err,
        GetReleaseInfo E (ReleaseImage E p) (OriginReleasePrefix E p) pullSecretFile
          = Err err ->
        r = ([], Return (Some err))) /\
     (forall info done group rest st1 msg,
        GetReleaseInfo E (ReleaseImage E p) (OriginReleasePrefix E p) pullSecretFile
          = Ok info ->
        groups etcd_ vpn externalOauth includeRegistry = done ++ group :: rest ->
        sequence done
          {| self := newClusterManifestContext (Images info) (Versions info)
                       p pkiDir dir vpn;
             runtime := rt |} = Done (tt, st1) ->
        group st1 = Panic msg ->
        r = ([], Unwind msg)) /\
     (snd r <> Return None -> fst r = [])) /\
  (forall (st st1 : Machine E) (done rest : list string) (name : string)
          (err : error) (g : Rng E),
     addManifestFiles done st = Done (tt, st1) ->
     execute E (funcs (embedded (self st1))) (ParamsData (params (embedded (self st1))))
       name (rng (runtime st1)) = (Err err, g) ->
     addManifestFiles (done ++ name :: rest) st = Panic err) /\
  (forall (st : Machine E) (baseName patchAssetPath : string),
     (OMap.get baseName (out st) = None ->
      addPatch baseName patchAssetPath st = Panic PatchTargetMissing) /\
     (forall current err g,
        OMap.get baseName (out st) = Some current ->
        execute E (funcs (embedded (self st))) (ParamsData (params (embedded (self st))))
          patchAssetPath (rng (runtime st)) = (Err err, g) ->
        addPatch baseName patchAssetPath st = Panic err)) /\
  (forall (st st1 : Machine E) (done rest : list string) (file : string) (err : error),
     bootstrapFiles done st = Done (tt, st1) ->
     ((exists g, execute E (funcs (embedded (self st1)))
                   (ParamsData (params (embedded (self st1)))) file (rng (runtime st1))
                 = (Err err, g)) \/
      (exists data g1 g2,
         execute E (funcs (embedded (self st1)))
           (ParamsData (params (embedded (self st1)))) file (rng (runtime st1))
         = (Ok data, g1) /\
         execute E (funcs (embedded (self st1)))
           (MapData {[ "data" := data;
                       "name" := "user-manifest-" +:+
                                 underscoresToHyphens (beforeFirstDot (Go.Base file)) ]})
           wrapperTemplate g1 = (Err err, g2))) ->
     bootstrapFiles (done ++ file :: rest) st = Panic err) /\
  (forall (st st1 : Machine E) (done rest : list (string * string))
          (name data : string) (err : error) (g : Rng E),
     bootstrapEntries done st = Done (tt, st1) ->
     execute E (funcs (embedded (self st1)))
       (MapData {[ "data" := data;
                   "name" := "user-manifest-" +:+
                             underscoresToHyphens (beforeFirstDot name) ]})
       wrapperTemplate (rng (runtime st1)) = (Err err, g) ->
     bootstrapEntries (done ++ (name, data) :: rest) st = Panic err).
Proof.
  split; [|split; [|split; [|split]]].
  - intros p pullSecretFile pkiDir dir etcd_ vpn externalOauth includeRegistry rt r.
    subst r. unfold RenderClusterManifests. split; [|split].
    + intros err ->. reflexivity.
    + intros info done group rest st1 msg -> Hgroups Hdone Hgroup.
      rewrite setupManifests_sequence, Hgroups.
      unfold sequence in *.
      now rewrite (forEach_first_failure done rest group _ _ st1 msg Hdone Hgroup).
    + destruct (GetReleaseInfo E _ _ _) as [info|err]; [|reflexivity].
      destruct (setupManifests _ _ _ _ _) as [[[] st']|msg]; [|reflexivity].
      simpl. congruence.
  - intros st st1 done rest name err g Hdone Hexec.
    rewrite addManifestFiles_forEach in *.
    eapply forEach_first_failure; [exact Hdone|].
    eapply addManifestFile_fails, Hexec.
  - intros st baseName patch. split; [apply addPatch_missing|].
    intros current err g. apply addPatch_fails.
  - intros st st1 done rest file err Hdone Hfail.
    rewrite bootstrapFiles_forEach in *.
    eapply forEach_first_failure; [exact Hdone|].
    now apply wrapFile_fails.
  - intros st st1 done rest name data err g Hdone Hfail.
    rewrite bootstrapEntries_forEach in *.
    eapply forEach_first_failure; [exact Hdone|].
    unfold wrapEntry. cbn [fst snd]. eapply wrapUserManifest_fails, Hfail.
Qed.

Lemma render_fails_fast_witness :
  RenderClusterManifests (E := Sample.env "etcd/etcd-cluster.yaml")
    Sample.cluster "pull-secret.json" "pki" "out" true true true true
    (Sample.runtimeOf "etcd/etcd-cluster.yaml" [ "k3x9" ] (fun l => l))
  = ([], Unwind "TemplateError: etcd/etcd-cluster.yaml").
Proof.
  apply (proj1 (proj2 (proj1 (render_fails_fast (Sample.env "etcd/etcd-cluster.yaml"))
                         Sample.cluster "pull-secret.json" "pki" "out"
                         true true true true
                         (Sample.runtimeOf "etcd/etcd-cluster.yaml" [ "k3x9" ] (fun l => l))))
           {| Images := ∅; Versions := ∅ |} [] etcd
           [ kubeAPIServer; clusterBootstrap; oauthOpenshiftServer; openVPN; registry;
             userManifestsBootstrapper; routerProxy; hypershiftOperator ]
           (Sample.created "etcd/etcd-cluster.yaml"
              (Sample.runtimeOf "etcd/etcd-cluster.yaml" [ "k3x9" ] (fun l => l)))
           "TemplateError: etcd/etcd-cluster.yaml");
    reflexivity.
Defined.

(** ** Determinism *)

Section Determinism.

Context {E : Env}.

(** No template expansion depends on the entropy. *)
Hypothesis expansion_ignores_entropy :
  forall fm data f (g1 g2 : Rng E),
    fst (execute E fm data f g1) = fst (execute E fm data f g2).

Implicit Types (st : Machine E).

Lemma oblivious_ret {A} (a : A) : oblivious (E := E) (ret a).
Proof. intros st1 st2 H. simpl. now split. Qed.

Lemma oblivious_panic {A} (msg : string) : oblivious (E := E) (A := A) (panic msg).
Proof. intros st1 st2 H. reflexivity. Qed.

Lemma oblivious_bind {A B} (m : M (Machine E) A) (k : A -> M (Machine E) B) :
  oblivious m -> (forall a, oblivious (k a)) -> oblivious (bind m k).
Proof.
  intros Hm Hk st1 st2 Ha. unfold bind. specialize (Hm st1 st2 Ha).
  destruct (m st1) as [[a1 s1]|m1], (m st2) as [[a2 s2]|m2];
    simpl in Hm; try contradiction.
  - destruct Hm as [-> Hs]. now apply Hk.
  - exact Hm.
Qed.

Lemma oblivious_this : oblivious (E := E) this.
Proof. intros st1 st2 [Hs Hr]. simpl. now repeat split. Qed.

Lemma oblivious_substituteParams (data : TemplateData (ClusterParams E)) (f : string) :
  oblivious (substituteParams data f).
Proof.
  intros st1 st2 [Hs Hr]. unfold substituteParams. rewrite Hs.
  pose proof (expansion_ignores_entropy (funcs (embedded (self st2))) data f
                (rng (runtime st1)) (rng (runtime st2))) as Hpure.
  destruct (execute E _ data f (rng (runtime st1))) as [r1 g1].
  destruct (execute E _ data f (rng (runtime st2))) as [r2 g2].
  simpl in Hpure. subst r2. simpl. split; [reflexivity|]. exact (conj Hs Hr).
Qed.

Lemma oblivious_modify (f : clusterManifestContext (ClusterParams E) ->
                            clusterManifestContext (ClusterParams E)) :
  (forall c, userManifests (f c) = userManifests c) ->
  oblivious (modify (onSelf f)).
Proof.
  intros Hf st1 st2 [Hs Hr]. simpl. split; [reflexivity|]. split.
  - simpl. now rewrite Hs.
  - unfold rangedEntries in *. simpl. now rewrite !Hf.
Qed.

Lemma oblivious_addManifest (name content : string) :
  oblivious (E := E) (addManifest name content).
Proof. apply oblivious_modify. reflexivity. Qed.

Lemma oblivious_addUserManifestFiles (l : list string) :
  oblivious (E := E) (addUserManifestFiles l).
Proof. apply oblivious_modify. reflexivity. Qed.

Lemma oblivious_addManifestFiles (l : list string) :
  oblivious (E := E) (addManifestFiles l).
Proof.
  induction l as [|name l IH]; [apply oblivious_ret|].
  cbn [addManifestFiles].
  apply oblivious_bind; [apply oblivious_this|]. intros c.
  apply oblivious_bind; [apply oblivious_substituteParams|]. intros [content|e].
  - apply oblivious_bind; [apply oblivious_addManifest|]. intros _. exact IH.
  - apply oblivious_panic.
Qed.

Lemma oblivious_addPatch (baseName patch : string) :
  oblivious (E := E) (addPatch baseName patch).
Proof.
  unfold addPatch.
  apply oblivious_bind; [apply oblivious_this|]. intros c.
  destruct (OMap.get baseName (manifests (embedded c))) as [current|];
    [|apply oblivious_panic].
  apply oblivious_bind; [apply oblivious_substituteParams|]. intros [text|e].
  - apply oblivious_addManifest.
  - apply oblivious_panic.
Qed.

Lemma oblivious_when (b : bool) (m : M (Machine E) unit) :
  oblivious m -> oblivious (when b m).
Proof. intros H. destruct b; [exact H|apply oblivious_ret]. Qed.

Lemma oblivious_clusterBootstrap : oblivious (E := E) clusterBootstrap.
Proof.
  unfold clusterBootstrap.
  destruct (AssetDir E "cluster-bootstrap") as [listing|e]; [|apply oblivious_panic].
  induction listing as [|m listing IH]; [apply oblivious_ret|].
  cbn [clusterBootstrapRange].
  apply oblivious_bind; [apply oblivious_addUserManifestFiles|]. intros _. exact IH.
Qed.

Lemma oblivious_configMapName (name : string) : oblivious (E := E) (configMapName name).
Proof.
  unfold configMapName.
  destruct (userConfigMapName name); [apply oblivious_ret|apply oblivious_panic].
Qed.

Lemma oblivious_bootstrapFiles (fs : list string) :
  oblivious (E := E) (bootstrapFiles fs).
Proof.
  induction fs as [|file fs IH]; [apply oblivious_ret|].
  cbn [bootstrapFiles].
  apply oblivious_bind; [apply oblivious_this|]. intros c.
  apply oblivious_bind; [apply oblivious_substituteParams|].
  intros [data|e]; [|apply oblivious_panic].
  apply oblivious_bind; [apply oblivious_configMapName|]. intros cm.
  apply oblivious_bind; [apply oblivious_substituteParams|].
  intros [manifest|e]; [|apply oblivious_panic].
  apply oblivious_bind; [apply oblivious_addManifest|]. intros _. exact IH.
Qed.

Lemma oblivious_bootstrapEntries (es : list (string * string)) :
  oblivious (E := E) (bootstrapEntries es).
Proof.
  induction es as [|[name data] es IH]; [apply oblivious_ret|].
  cbn [bootstrapEntries].
  apply oblivious_bind; [apply oblivious_configMapName|]. intros cm.
  apply oblivious_bind; [apply oblivious_substituteParams|].
  intros [manifest|e]; [|apply oblivious_panic].
  apply oblivious_bind; [apply oblivious_addManifest|]. intros _. exact IH.
Qed.

Lemma oblivious_userManifestsBootstrapper :
  oblivious (E := E) userManifestsBootstrapper.
Proof.
  unfold userManifestsBootstrapper.
  apply oblivious_bind; [apply oblivious_addManifestFiles|]. intros _.
  apply oblivious_bind.
  - apply oblivious_bind; [apply oblivious_this|]. intros c.
    apply oblivious_bootstrapFiles.
  - intros _ st1 st2 Ha. fold (rangedEntries st1). fold (rangedEntries st2).
    destruct Ha as [Hs Hr]. rewrite Hr.
    apply oblivious_bootstrapEntries. now split.
Qed.

Lemma oblivious_setupManifests (etcd_ vpn externalOauth includeRegistry : bool) :
  oblivious (E := E) (setupManifests etcd_ vpn externalOauth includeRegistry).
Proof.
  unfold setupManifests, etcd, kubeAPIServer, oauthOpenshiftServer, openVPN,
    registry, routerProxy, hypershiftOperator.
  repeat first
    [ apply oblivious_userManifestsBootstrapper
    | apply oblivious_clusterBootstrap
    | apply oblivious_when
    | apply oblivious_addManifestFiles
    | apply oblivious_addUserManifestFiles
    | apply oblivious_addPatch
    | apply oblivious_bind; [|intros _] ].
Qed.

Lemma renderPass_agree (etcd_ vpn externalOauth includeRegistry : bool) st1 st2 :
  agree st1 st2 ->
  renderPass etcd_ vpn externalOauth includeRegistry st1 =
  renderPass etcd_ vpn externalOauth includeRegistry st2.
Proof.
  intros Ha. unfold renderPass.
  pose proof (oblivious_setupManifests etcd_ vpn externalOauth includeRegistry
                st1 st2 Ha) as H.
  destruct (setupManifests _ _ _ _ st1) as [[[] s1]|m1],
           (setupManifests _ _ _ _ st2) as [[[] s2]|m2];
    simpl in H; try contradiction.
  - destruct H as [_ [Hs _]]. now rewrite Hs.
  - now subst.
Qed.

End Determinism.

Lemma short_list_order {A} (order : list A -> list A) (l : list A) :
  length l <= 1 -> order l ≡ₚ l -> order l = l.
Proof.
  intros Hlen Hperm. destruct l as [|x [|y l]].
  - now apply Permutation_nil_r.
  - now apply Permutation_singleton_r.
  - simpl in Hlen. lia.
Qed.

(** C8, as stated, fails.  With the same parameters, tables, flags,
    assets and starting context, two passes differ when a template calls
    [randomString] and the entropy differs (first part), and they differ
    in the order of the output when the user manifest map holds two
    entries and the two ranges visit them in different orders (second
    part). *)
Lemma render_pass_not_determined :
  renderPass false false false false (Sample.seeded Sample.inOrder) <>
  renderPass false false false false (Sample.seeded Sample.otherTape) /\
  renderPass false false false false (Sample.withUserManifests Sample.inOrder) <>
  renderPass false false false false (Sample.withUserManifests Sample.reversed).
Proof.
  split; intros H; vm_compute in H; discriminate H.
Qed.

(** C8, amended.  When no template expansion depends on the entropy, the
    result of a render pass on a given context is the same for any two
    entropy sources, provided the two passes range over the user manifest
    map in the same order; this is so for any two orders when the map
    holds at most one entry, and so for every call of
    [RenderClusterManifests], whose map is empty. *)
Theorem render_pass_determined (E : Env) :
  (forall fm data f (g1 g2 : Rng E),
     fst (execute E fm data f g1) = fst (execute E fm data f g2)) ->
  (forall (etcd_ vpn externalOauth includeRegistry : bool)
          (c : clusterManifestContext (ClusterParams E)) (rt1 rt2 : Runtime E),
     rangeOrder rt1 (map_to_list (userManifests c)) =
     rangeOrder rt2 (map_to_list (userManifests c)) ->
     renderPass etcd_ vpn externalOauth includeRegistry {| self := c; runtime := rt1 |} =
     renderPass etcd_ vpn externalOauth includeRegistry {| self := c; runtime := rt2 |}) /\
  (forall (etcd_ vpn externalOauth includeRegistry : bool)
          (c : clusterManifestContext (ClusterParams E)) (rt1 rt2 : Runtime E),
     size (userManifests c) <= 1 ->
     (forall l, rangeOrder rt1 l ≡ₚ l) -> (forall l, rangeOrder rt2 l ≡ₚ l) ->
     renderPass etcd_ vpn externalOauth includeRegistry {| self := c; runtime := rt1 |} =
     renderPass etcd_ vpn externalOauth includeRegistry {| self := c; runtime := rt2 |}) /\
  (forall (p : ClusterParams E) (pullSecretFile pkiDir dir : string)
          (etcd_ vpn externalOauth includeRegistry : bool) (rt1 rt2 : Runtime E),
     (forall l, rangeOrder rt1 l ≡ₚ l) -> (forall l, rangeOrder rt2 l ≡ₚ l) ->
     RenderClusterManifests p pullSecretFile pkiDir dir
       etcd_ vpn externalOauth includeRegistry rt1 =
     RenderClusterManifests p pullSecretFile pkiDir dir
       etcd_ vpn externalOauth includeRegistry rt2).
Proof.
  intros Hpure.
  assert (Hsame : forall (etcd_ vpn externalOauth includeRegistry : bool)
            (c : clusterManifestContext (ClusterParams E)) (rt1 rt2 : Runtime E),
            rangeOrder rt1 (map_to_list (userManifests c)) =
            rangeOrder rt2 (map_to_list (userManifests c)) ->
            renderPass etcd_ vpn externalOauth includeRegistry
              {| self := c; runtime := rt1 |} =
            renderPass etcd_ vpn externalOauth includeRegistry
              {| self := c; runtime := rt2 |}).
  { intros etcd_ vpn externalOauth includeRegistry c rt1 rt2 Horder.
    apply renderPass_agree; [exact Hpure|]. split; [reflexivity|exact Horder]. }
  assert (Hshort : forall (etcd_ vpn externalOauth includeRegistry : bool)
            (c : clusterManifestContext (ClusterParams E)) (rt1 rt2 : Runtime E),
            size (userManifests c) <= 1 ->
            (forall l, rangeOrder rt1 l ≡ₚ l) -> (forall l, rangeOrder rt2 l ≡ₚ l) ->
            renderPass etcd_ vpn externalOauth includeRegistry
              {| self := c; runtime := rt1 |} =
            renderPass etcd_ vpn externalOauth includeRegistry
              {| self := c; runtime := rt2 |}).
  { intros etcd_ vpn externalOauth includeRegistry c rt1 rt2 Hsize H1 H2.
    apply Hsame.
    rewrite !short_list_order; try reflexivity; try apply H1; try apply H2;
      now rewrite length_map_to_list. }
  split; [exact Hsame|]. split; [exact Hshort|].
  intros p pullSecretFile pkiDir dir etcd_ vpn externalOauth includeRegistry rt1 rt2 H1 H2.
  unfold RenderClusterManifests.
  destruct (GetReleaseInfo E _ _ _) as [info|err]; [|reflexivity].
  apply (Hshort etcd_ vpn externalOauth includeRegistry
           (newClusterManifestContext (Images info) (Versions info) p pkiDir dir vpn)
           rt1 rt2); [|exact H1|exact H2].
  simpl. rewrite map_size_empty. lia.
Qed.

Lemma render_pass_determined_witness :
  renderPass false true false false (Sample.plainMachine [ "k3x9" ] (fun l => l)) =
  renderPass false true false false (Sample.plainMachine [ "p7q2" ] (@rev _)).
Proof.
  apply (proj1 (proj2 (render_pass_determined Sample.plain
                         (fun fm data f g1 g2 => eq_refl)))
           false true false false _
           {| rng := [ "k3x9" ] : Rng Sample.plain; rangeOrder := fun l => l |}
           {| rng := [ "p7q2" ] : Rng Sample.plain; rangeOrder := @rev _ |}).
  - vm_compute. lia.
  - intros l. reflexivity.
  - intros l. simpl. symmetry. apply Permutation_rev.
Defined.

(** * Further properties of the file *)

(** ** Splitting, joining and the two segment functions *)

Lemma append_cons (ch : ascii) (s t : string) :
  String ch s +:+ t = String ch (s +:+ t).
Proof. reflexivity. Qed.

Lemma append_nil (t : string) : "" +:+ t = t.
Proof. reflexivity. Qed.

Lemma append_assoc (a b c : string) : (a +:+ b) +:+ c = a +:+ b +:+ c.
Proof.
  induction a as [|ch a IH]; [reflexivity|].
  rewrite !append_cons. now rewrite IH.
Qed.

Lemma SplitPieces_first (s : string) :
  fst (Go.SplitPieces s ".") = beforeFirstDot s.
Proof.
  induction s as [|ch rest IH]; [reflexivity|].
  simpl. destruct (Go.SplitPieces rest ".") as [piece pieces].
  simpl in IH. destruct (Ascii.eqb ch "."); simpl; congruence.
Qed.

Lemma Join_cons (x : string) (rest : list string) (sep : string) :
  Go.Join (x :: rest) sep =
  match rest with [] => x | _ :: _ => x +:+ sep +:+ Go.Join rest sep end.
Proof. reflexivity. Qed.

Lemma SplitPieces_Join (s : string) (sep : ascii) :
  Go.Join (fst (Go.SplitPieces s sep) :: snd (Go.SplitPieces s sep))
    (String sep "") = s.
Proof.
  induction s as [|ch rest IH]; [reflexivity|].
  cbn [Go.SplitPieces]. destruct (Go.SplitPieces rest sep) as [piece pieces].
  cbn [fst snd] in IH.
  destruct (Ascii.eqb_spec ch sep) as [->|Hne]; cbn [fst snd].
  - rewrite Join_cons, IH. reflexivity.
  - rewrite Join_cons. rewrite Join_cons in IH.
    destruct pieces as [|p ps]; [now rewrite IH|].
    rewrite append_cons. now rewrite IH.
Qed.

Lemma SplitPieces_no_sep (s : string) (sep : ascii) :
  (sep ∉ bytes (fst (Go.SplitPieces s sep))) /\
  forall piece, piece ∈ snd (Go.SplitPieces s sep) -> sep ∉ bytes piece.
Proof.
  induction s as [|ch rest IH].
  - split; [apply not_elem_of_nil|]. intros piece H. now apply elem_of_nil in H.
  - cbn [Go.SplitPieces]. destruct (Go.SplitPieces rest sep) as [piece pieces].
    cbn [fst snd] in IH. destruct IH as [IH1 IH2].
    destruct (Ascii.eqb_spec ch sep) as [->|Hne]; cbn [fst snd].
    + split; [apply not_elem_of_nil|].
      intros q Hq. apply elem_of_cons in Hq as [->|Hq]; [exact IH1|now apply IH2].
    + split; [|exact IH2]. unfold bytes. cbn [String.list_ascii_of_string].
      apply not_elem_of_cons. split; [congruence|exact IH1].
Qed.

Lemma SplitPieces_length (s : string) (sep : ascii) :
  length (snd (Go.SplitPieces s sep)) = occurrences sep s.
Proof.
  unfold occurrences, bytes. induction s as [|ch rest IH]; [reflexivity|].
  cbn [Go.SplitPieces String.list_ascii_of_string].
  destruct (Go.SplitPieces rest sep) as [piece pieces]. cbn [snd] in IH.
  destruct (Ascii.eqb_spec ch sep) as [->|Hne]; cbn [snd].
  - rewrite filter_cons_True by reflexivity. simpl. now rewrite IH.
  - rewrite filter_cons_False by congruence. exact IH.
Qed.

(** X1. Splitting on a byte and joining the pieces with that byte gives
    the string back; no piece contains the byte; and there is one piece
    more than the byte has occurrences, so the slice is never empty. *)
Theorem Split_Join_round_trip (s : string) (sep : ascii) :
  Go.Join (Go.Split s sep) (String sep "") = s /\
  (forall piece, piece ∈ Go.Split s sep -> sep ∉ bytes piece) /\
  length (Go.Split s sep) = S (occurrences sep s).
Proof.
  unfold Go.Split.
  pose proof (SplitPieces_Join s sep) as HJ.
  pose proof (SplitPieces_no_sep s sep) as [HN1 HN2].
  pose proof (SplitPieces_length s sep) as HL.
  destruct (Go.SplitPieces s sep) as [piece pieces]. cbn [fst snd] in *.
  split; [exact HJ|]. split.
  - intros q Hq. apply elem_of_cons in Hq as [->|Hq]; [exact HN1|now apply HN2].
  - simpl. now rewrite HL.
Qed.

Lemma no_dot_beforeFirstDot (s : string) :
  "."%char ∉ bytes s -> beforeFirstDot s = s.
Proof.
  unfold bytes. induction s as [|ch rest IH]; [reflexivity|].
  cbn [String.list_ascii_of_string beforeFirstDot]. intros H.
  apply not_elem_of_cons in H as [Hne Hrest].
  destruct (Ascii.eqb_spec ch "."); [congruence|]. now rewrite IH.
Qed.

(** X2. [trimFirstSegment] always returns: for an identifier without a
    ['.'] it returns the empty string, and otherwise the identifier is
    the text before its first ['.'], a ['.'], and what
    [trimFirstSegment] returns, so it drops exactly the segment that
    [userConfigMapName] keeps. *)
Theorem trimFirstSegment_cut (s : string) :
  exists t,
    trimFirstSegment s = Some t /\
    ((("."%char ∉ bytes s) /\ t = "") \/
     (("."%char ∈ bytes s) /\ s = beforeFirstDot s +:+ "." +:+ t)).
Proof.
  unfold trimFirstSegment, Go.Split.
  pose proof (SplitPieces_Join s ".") as HJ.
  pose proof (SplitPieces_first s) as HF.
  pose proof (SplitPieces_no_sep s ".") as [HN _].
  pose proof (SplitPieces_length s ".") as HL.
  destruct (Go.SplitPieces s ".") as [piece pieces]. cbn [fst snd] in *.
  subst piece.
  destruct (decide (1 <= length (beforeFirstDot s :: pieces))) as [_|Hlen];
    [|simpl in Hlen; lia].
  exists (Go.Join pieces "."). split; [reflexivity|].
  rewrite Join_cons in HJ. destruct pieces as [|p ps].
  - left. split; [|reflexivity]. rewrite HJ in HN. exact HN.
  - right. split; [|now rewrite HJ].
    unfold occurrences in HL. simpl in HL.
    destruct (filter (fun c => c = "."%char) (bytes s)) as [|c l] eqn:Hf;
      [discriminate HL|].
    assert (Hc : c ∈ filter (fun c => c = "."%char) (bytes s)) by (rewrite Hf; left).
    apply list_elem_of_filter in Hc as [-> Hc]. exact Hc.
Qed.

(** ** When two ConfigMap names coincide *)

Lemma underscoresToHyphens_idempotent (s : string) :
  underscoresToHyphens (underscoresToHyphens s) = underscoresToHyphens s.
Proof.
  induction s as [|ch rest IH]; [reflexivity|].
  cbn [underscoresToHyphens]. rewrite IH.
  destruct (Ascii.eqb_spec ch "_") as [->|Hne]; [reflexivity|].
  now destruct (Ascii.eqb_spec ch "_").
Qed.

Lemma beforeFirstDot_underscoresToHyphens (s : string) :
  beforeFirstDot (underscoresToHyphens s) = underscoresToHyphens (beforeFirstDot s).
Proof.
  induction s as [|ch rest IH]; [reflexivity|].
  cbn [underscoresToHyphens beforeFirstDot].
  destruct (Ascii.eqb_spec ch "_") as [->|Hne].
  - simpl. now rewrite IH.
  - destruct (Ascii.eqb_spec ch "."); [reflexivity|].
    cbn [underscoresToHyphens].
    destruct (Ascii.eqb_spec ch "_"); [contradiction|]. now rewrite IH.
Qed.

(** X3. Two identifiers get the same ConfigMap name exactly when their
    texts before the first ['.'] agree once underscores are read as
    hyphens; in particular replacing the underscores of an identifier by
    hyphens does not change its name, so "a_b" and "a-b" collide. *)
Theorem userConfigMapName_collisions (f g : string) :
  (userConfigMapName f = userConfigMapName g <->
   underscoresToHyphens (beforeFirstDot f) = underscoresToHyphens (beforeFirstDot g)) /\
  userConfigMapName (Go.ReplaceAll f "_" "-") = userConfigMapName f.
Proof.
  split.
  - rewrite !userConfigMapName_eq. split.
    + intros H. injection H as H. now apply append_inj in H.
    + now intros ->.
  - rewrite !userConfigMapName_eq, ReplaceAll_underscores.
    now rewrite beforeFirstDot_underscoresToHyphens, underscoresToHyphens_idempotent.
Qed.

(** ** Base names *)

Lemma lastSlash_None (s : string) :
  Go.lastSlash s = None <-> "/"%char ∉ bytes s.
Proof.
  unfold bytes. induction s as [|ch rest IH].
  - split; [intros _; apply not_elem_of_nil|reflexivity].
  - cbn [Go.lastSlash String.list_ascii_of_string]. rewrite not_elem_of_cons.
    destruct (Go.lastSlash rest) as [i|].
    + split; [discriminate|]. intros [_ H]. now apply IH in H.
    + destruct (Ascii.eqb_spec ch "/") as [->|Hne].
      * split; [discriminate|]. now intros [H _].
      * split; [|reflexivity]. intros _. split; [congruence|now apply IH].
Qed.

Lemma afterLastSlash_no_slash (s : string) :
  "/"%char ∉ bytes (match Go.lastSlash s with
                    | Some i => Go.sliceFrom (S i) s
                    | None => s
                    end).
Proof.
  induction s as [|ch rest IH]; [apply not_elem_of_nil|].
  cbn [Go.lastSlash]. destruct (Go.lastSlash rest) as [i|] eqn:Hrest.
  - exact IH.
  - apply lastSlash_None in Hrest.
    destruct (Ascii.eqb_spec ch "/") as [->|Hne].
    + exact Hrest.
    + unfold bytes. cbn [String.list_ascii_of_string].
      apply not_elem_of_cons. split; [congruence|exact Hrest].
Qed.

Lemma stripTrailingSlashes_append (x m : string) :
  m <> "" -> "/"%char ∉ bytes m ->
  Go.stripTrailingSlashes (x +:+ m) = x +:+ m.
Proof.
  intros Hm Hslash.
  assert (Hbase : Go.stripTrailingSlashes m = m).
  { clear Hm. unfold bytes in Hslash. induction m as [|ch rest IH]; [reflexivity|].
    cbn [String.list_ascii_of_string] in Hslash.
    apply not_elem_of_cons in Hslash as [Hne Hrest].
    cbn [Go.stripTrailingSlashes]. rewrite (IH Hrest).
    destruct rest; [|reflexivity].
    destruct (Ascii.eqb_spec ch "/"); [congruence|reflexivity]. }
  induction x as [|ch x IH]; [exact Hbase|].
  rewrite append_cons. cbn [Go.stripTrailingSlashes]. rewrite IH.
  destruct (x +:+ m) eqn:Hxm; [|reflexivity].
  destruct x; [now rewrite append_nil in Hxm|discriminate Hxm].
Qed.

Lemma Base_fixed (s : string) :
  s <> "" -> "/"%char ∉ bytes s -> Go.Base s = s.
Proof.
  intros Hs Hslash. unfold Go.Base.
  destruct (String.eqb_spec s ""); [contradiction|].
  pose proof (stripTrailingSlashes_append "" s Hs Hslash) as Hstrip.
  rewrite append_nil in Hstrip. rewrite Hstrip.
  apply lastSlash_None in Hslash. rewrite Hslash.
  now destruct (String.eqb_spec s "").
Qed.

Lemma lastSlash_in_directory (d m : string) :
  "/"%char ∉ bytes m ->
  Go.lastSlash (d +:+ "/" +:+ m) = Some (String.length d) /\
  Go.sliceFrom (S (String.length d)) (d +:+ "/" +:+ m) = m.
Proof.
  intros Hslash. induction d as [|ch d [IH1 IH2]].
  - rewrite append_nil, append_cons, append_nil. cbn [Go.lastSlash].
    apply lastSlash_None in Hslash. rewrite Hslash. now split.
  - rewrite append_cons. cbn [Go.lastSlash String.length]. rewrite IH1.
    split; [reflexivity|exact IH2].
Qed.

Lemma Base_in_directory (d m : string) :
  m <> "" -> "/"%char ∉ bytes m -> Go.Base (d +:+ "/" +:+ m) = m.
Proof.
  intros Hm Hslash. unfold Go.Base.
  destruct (String.eqb_spec (d +:+ "/" +:+ m) "") as [Hempty|_].
  { destruct d; discriminate Hempty. }
  pose proof (stripTrailingSlashes_append (d +:+ "/") m Hm Hslash) as Hstrip.
  rewrite append_assoc in Hstrip. rewrite Hstrip.
  destruct (lastSlash_in_directory d m Hslash) as [-> ->].
  now destruct (String.eqb_spec m "").
Qed.

Lemma Base_cases (path : string) :
  Go.Base path = "." \/ Go.Base path = "/" \/
  (Go.Base path <> "" /\ ("/"%char ∉ bytes (Go.Base path))).
Proof.
  unfold Go.Base.
  destruct (String.eqb_spec path "") as [_|_]; [now left|]. right.
  pose proof (afterLastSlash_no_slash (Go.stripTrailingSlashes path)) as Hno.
  destruct (match Go.lastSlash (Go.stripTrailingSlashes path) with
            | Some i => Go.sliceFrom (S i) (Go.stripTrailingSlashes path)
            | None => Go.stripTrailingSlashes path
            end) as [|ch last].
  - now left.
  - right. cbn [String.eqb]. split; [discriminate|exact Hno].
Qed.

(** X4. [path.Base] never returns the empty string; what it returns is
    "/" or has no slash in it; and it returns its own results unchanged.
    So the bootstrapper always hands [userConfigMapName] a non-empty
    name, and one without a path separator unless the file path is
    slashes only. *)
Theorem Base_shape (path : string) :
  Go.Base path <> "" /\
  (Go.Base path = "/" \/ ("/"%char ∉ bytes (Go.Base path))) /\
  Go.Base (Go.Base path) = Go.Base path.
Proof.
  destruct (Base_cases path) as [H|[H|[Hne Hno]]].
  - rewrite H. split; [discriminate|]. split; [|reflexivity]. right.
    intros Hin. unfold bytes in Hin. simpl in Hin. not_listed Hin.
  - rewrite H. split; [discriminate|]. split; [now left|reflexivity].
  - split; [exact Hne|]. split; [now right|]. now apply Base_fixed.
Qed.

(** X5. A cluster-bootstrap asset is delivered under its own file name:
    when a setup completes, every entry [m] of the directory listing that
    is a plain file name (not empty, no slash) has been registered as
    "cluster-bootstrap/" followed by [m], and its wrapped manifest is in
    the output under "user-manifest-" followed by [m]. *)
Theorem cluster_bootstrap_assets_delivered (E : Env)
    (etcd_ vpn externalOauth includeRegistry : bool) (st st' : Machine E)
    (listing : list string) (m : string) :
  setupManifests etcd_ vpn externalOauth includeRegistry st = Done (tt, st') ->
  AssetDir E "cluster-bootstrap" = Ok listing ->
  m ∈ listing -> m <> "" -> "/"%char ∉ bytes m ->
  "cluster-bootstrap/" +:+ m ∈ files st' /\
  "user-manifest-" +:+ m ∈ names st'.
Proof.
  intros H Hdir Hm Hne Hslash.
  apply setupManifests_evolves in H as (listing' & Hdir' & Hn & Hf & _).
  rewrite Hdir in Hdir'. injection Hdir' as <-.
  assert (Hreg : "cluster-bootstrap/" +:+ m
                 ∈ registeredBySetup vpn externalOauth includeRegistry listing).
  { unfold registeredBySetup. rewrite elem_of_app, elem_of_map. left. eauto. }
  split.
  - rewrite Hf, elem_of_app. now right.
  - rewrite Hn. apply elem_of_addNames. right.
    unfold addedBySetup, addedBeforeRouter, addedByBootstrapper.
    rewrite !elem_of_app, !elem_of_map. left. do 3 right. right. left.
    exists ("cluster-bootstrap/" +:+ m). split.
    + unfold wrappedName. f_equal. symmetry.
      exact (Base_in_directory "cluster-bootstrap" m Hne Hslash).
    + rewrite elem_of_app. now right.
Qed.

Lemma cluster_bootstrap_assets_delivered_witness :
  exists st',
    setupManifests false false false false (Sample.seeded Sample.inOrder) = Done (tt, st') /\
    "cluster-bootstrap/dns_config.yaml" ∈ files st' /\
    "user-manifest-dns_config.yaml" ∈ names st'.
Proof.
  destruct (setupManifests false false false false (Sample.seeded Sample.inOrder))
    as [[[] st']|msg] eqn:Hrun; [|vm_compute in Hrun; discriminate Hrun].
  exists st'. split; [reflexivity|].
  apply (cluster_bootstrap_assets_delivered (Sample.env "") false false false false
           _ _ [ "namespaces.yaml"; "dns_config.yaml" ] "dns_config.yaml" Hrun eq_refl).
  - right. left.
  - discriminate.
  - intros H. unfold bytes in H. simpl in H. not_listed H.
Defined.

(** ** What the methods leave alone *)

Lemma prefix_append (p x : string) : String.prefix p (p +:+ x) = true.
Proof.
  induction p as [|ch p IH]; [now destruct x|].
  rewrite append_cons. simpl.
  destruct (Ascii.ascii_dec ch ch); [exact IH|contradiction].
Qed.

Section Frame.

Context {E : Env}.

Variable R : Machine E -> Machine E -> Prop.
Variable T : string -> Prop.

Hypothesis R_refl : forall st, R st st.
Hypothesis R_trans : forall st1 st2 st3, R st1 st2 -> R st2 st3 -> R st1 st3.
Hypothesis R_rng : forall st g, R st (setRng g st).
Hypothesis R_add : forall st n v, T n ->
  R st (onSelf (fun c => setManifests (OMap.set n v (manifests (embedded c))) c) st).
Hypothesis R_files : forall st l,
  R st (onSelf (fun c => setUserManifestFiles (userManifestFiles c ++ l) c) st).

Implicit Types (st : Machine E).

Lemma respects_ret {A} (a : A) : respects R (ret a).
Proof. intros st b st' H. injection H as _ <-. apply R_refl. Qed.

Lemma respects_panic {A} (msg : string) : respects R (A := A) (panic msg).
Proof. intros st b st' H. discriminate H. Qed.

Lemma respects_bind {A B} (m : M (Machine E) A) (k : A -> M (Machine E) B) :
  respects R m -> (forall a, respects R (k a)) -> respects R (bind m k).
Proof.
  intros Hm Hk st b st' H. apply bind_Done in H as (a & st1 & H1 & H2).
  eapply R_trans; [eapply Hm, H1|eapply Hk, H2].
Qed.

Lemma respects_this : respects R (this (E := E)).
Proof. intros st c st' H. injection H as _ <-. apply R_refl. Qed.

Lemma respects_substituteParams (data : TemplateData (ClusterParams E)) (f : string) :
  respects R (substituteParams data f).
Proof.
  intros st r st' H. destruct (substituteParams_run data f st) as (r' & g & Hs).
  rewrite Hs in H. injection H as _ <-. apply R_rng.
Qed.

Lemma respects_addManifest (n v : string) : T n -> respects R (addManifest n v).
Proof. intros Hn st [] st' H. injection H as <-. now apply R_add. Qed.

Lemma respects_addUserManifestFiles (l : list string) :
  respects R (addUserManifestFiles l).
Proof. intros st [] st' H. injection H as <-. apply R_files. Qed.

Lemma respects_addManifestFiles (l : list string) :
  (forall n, n ∈ l -> T n) -> respects R (addManifestFiles l).
Proof.
  induction l as [|name l IH]; intros Hl; [apply respects_ret|].
  cbn [addManifestFiles].
  apply respects_bind; [apply respects_this|]. intros c.
  apply respects_bind; [apply respects_substituteParams|].
  intros [content|e]; [|apply respects_panic].
  apply respects_bind; [apply respects_addManifest, Hl; left|]. intros _.
  apply IH. intros n Hn. apply Hl. now right.
Qed.

Lemma respects_addPatch (baseName patch : string) :
  T baseName -> respects R (addPatch baseName patch).
Proof.
  intros Hb. unfold addPatch.
  apply respects_bind; [apply respects_this|]. intros c.
  destruct (OMap.get baseName (manifests (embedded c))); [|apply respects_panic].
  apply respects_bind; [apply respects_substituteParams|].
  intros [text|e]; [now apply respects_addManifest|apply respects_panic].
Qed.

Lemma respects_when (b : bool) (m : M (Machine E) unit) :
  (b = true -> respects R m) -> respects R (when b m).
Proof. intros H. destruct b; [now apply H|apply respects_ret]. Qed.

Lemma respects_clusterBootstrap : respects R (clusterBootstrap (E := E)).
Proof.
  unfold clusterBootstrap.
  destruct (AssetDir E "cluster-bootstrap") as [listing|e]; [|apply respects_panic].
  induction listing as [|m listing IH]; [apply respects_ret|].
  cbn [clusterBootstrapRange].
  apply respects_bind; [apply respects_addUserManifestFiles|]. intros _. exact IH.
Qed.

Lemma respects_configMapName (name : string) : respects R (configMapName (E := E) name).
Proof.
  unfold configMapName.
  destruct (userConfigMapName name); [apply respects_ret|apply respects_panic].
Qed.

Lemma respects_bootstrapFiles (fs : list string) :
  (forall f, f ∈ fs -> T (wrappedName f)) -> respects R (bootstrapFiles fs).
Proof.
  induction fs as [|file fs IH]; intros Hfs; [apply respects_ret|].
  cbn [bootstrapFiles].
  apply respects_bind; [apply respects_this|]. intros c.
  apply respects_bind; [apply respects_substituteParams|].
  intros [data|e]; [|apply respects_panic].
  apply respects_bind; [apply respects_configMapName|]. intros cm.
  apply respects_bind; [apply respects_substituteParams|].
  intros [manifest|e]; [|apply respects_panic].
  apply respects_bind; [apply respects_addManifest, (Hfs file); left|]. intros _.
  apply IH. intros f Hf. apply Hfs. now right.
Qed.

Lemma respects_bootstrapEntries (es : list (string * string)) :
  (forall entry, entry ∈ es -> T (entryName entry)) -> respects R (bootstrapEntries es).
Proof.
  induction es as [|[name data] es IH]; intros Hes; [apply respects_ret|].
  cbn [bootstrapEntries].
  apply respects_bind; [apply respects_configMapName|]. intros cm.
  apply respects_bind; [apply respects_substituteParams|].
  intros [manifest|e]; [|apply respects_panic].
  apply respects_bind; [apply respects_addManifest, (Hes (name, data)); left|]. intros _.
  apply IH. intros entry Hentry. apply Hes. now right.
Qed.

Lemma userManifestsBootstrapper_related st st' :
  userManifestsBootstrapper st = Done (tt, st') ->
  T bootstrapperPod ->
  (forall f, f ∈ files st -> T (wrappedName f)) ->
  (forall entry, entry ∈ rangedEntries st -> T (entryName entry)) ->
  R st st'.
Proof.
  intros H Hpod Hfs Hes. unfold userManifestsBootstrapper in H.
  apply bind_Done in H as ([] & st1 & H1 & H).
  apply bind_Done in H as ([] & st2 & H2 & H).
  apply bind_Done in H2 as (c & st1' & Hc & H2). injection Hc as <- <-.
  pose proof (addManifestFiles_evolves _ _ _ H1) as (_ & Hf1 & Hu1 & Ho1).
  pose proof (bootstrapFiles_evolves _ _ _ H2) as (_ & _ & Hu2 & Ho2).
  fold (files st1) in H2. rewrite Hf1, app_nil_r in H2.
  rewrite Hu2, Ho2, Hu1, Ho1 in H. fold (rangedEntries st) in H.
  eapply R_trans; [|eapply R_trans].
  - eapply respects_addManifestFiles; [|exact H1].
    intros n Hn. apply list_elem_of_singleton in Hn. now subst n.
  - eapply respects_bootstrapFiles; [exact Hfs|exact H2].
  - eapply respects_bootstrapEntries; [exact Hes|exact H].
Qed.

Lemma respects_userManifestsBootstrapper :
  T bootstrapperPod -> (forall x, T ("user-manifest-" +:+ x)) ->
  respects R (userManifestsBootstrapper (E := E)).
Proof.
  intros Hpod Hwrap st [] st' H.
  apply (userManifestsBootstrapper_related st st' H Hpod).
  - intros f _. apply Hwrap.
  - intros entry _. apply Hwrap.
Qed.

Lemma respects_setupManifests (etcd_ vpn externalOauth includeRegistry : bool) :
  (forall n, setupWrites etcd_ vpn n -> T n) ->
  respects R (setupManifests (E := E) etcd_ vpn externalOauth includeRegistry).
Proof.
  intros HT.
  assert (Hlit : forall n,
            n ∈ (if etcd_ then etcdManifests else []) ++
                [ "kube-apiserver/kube-apiserver-vpnclient-config.yaml" ] ++
                (if vpn then vpnServerManifests else []) ++
                [ bootstrapperPod ] ++ routerProxyManifests ++ [ operatorManifest ] ->
            T n).
  { intros n Hn. apply HT. right. now left. }
  unfold setupManifests.
  apply respects_bind; [|intros _].
  { apply respects_when. intros ->. apply respects_addManifestFiles.
    intros n Hn. apply Hlit. rewrite elem_of_app. now left. }
  apply respects_bind; [|intros _].
  { unfold kubeAPIServer. apply respects_bind; [|intros _].
    - apply respects_addPatch, HT. now left.
    - apply respects_addManifestFiles. intros n Hn. apply Hlit.
      rewrite !elem_of_app. right. now left. }
  apply respects_bind; [apply respects_clusterBootstrap|intros _].
  apply respects_bind; [|intros _].
  { apply respects_when. intros _. apply respects_addUserManifestFiles. }
  apply respects_bind; [|intros _].
  { apply respects_when. intros ->. unfold openVPN.
    apply respects_bind; [|intros _; apply respects_addUserManifestFiles].
    apply respects_addManifestFiles. intros n Hn. apply Hlit.
    rewrite !elem_of_app. right. right. now left. }
  apply respects_bind; [|intros _].
  { apply respects_when. intros _. apply respects_addUserManifestFiles. }
  apply respects_bind; [|intros _].
  { apply respects_userManifestsBootstrapper.
    - apply Hlit. rewrite !elem_of_app. do 3 right. left. left.
    - intros x. apply HT. right. right. apply prefix_append. }
  apply respects_bind; [|intros _].
  { apply respects_addManifestFiles. intros n Hn. apply Hlit.
    rewrite !elem_of_app. do 4 right. now left. }
  apply respects_addManifestFiles. intros n Hn. apply Hlit.
  rewrite !elem_of_app. do 4 right. now right.
Qed.

End Frame.

(** The obligations of the frame lemmas for the relation "the fixed part
    is the same", and for "the entries outside [T] are the same". *)
Ltac fixed_obligations :=
  first [ reflexivity
        | let Hab := fresh in let Hbc := fresh in
          intros ? ? ? Hab Hbc; rewrite Hbc; exact Hab
        | intros; reflexivity
        | intros; exact I ].

Lemma untouched_refl {E : Env} (T : string -> Prop) (st : Machine E) :
  untouched T st st.
Proof. intros n _. reflexivity. Qed.

Lemma untouched_trans {E : Env} (T : string -> Prop) (st1 st2 st3 : Machine E) :
  untouched T st1 st2 -> untouched T st2 st3 -> untouched T st1 st3.
Proof. intros H1 H2 n Hn. rewrite (H2 n Hn). now apply H1. Qed.

Lemma untouched_add {E : Env} (T : string -> Prop) (st : Machine E) (k v : string) :
  T k ->
  untouched T st
    (onSelf (fun c => setManifests (OMap.set k v (manifests (embedded c))) c) st).
Proof.
  intros Hk n Hn. unfold out. simpl. apply OMap_get_set_ne.
  intros ->. contradiction.
Qed.

Lemma setupManifests_fixedPart {E : Env} (etcd_ vpn externalOauth includeRegistry : bool)
    (st st' : Machine E) :
  setupManifests etcd_ vpn externalOauth includeRegistry st = Done (tt, st') ->
  fixedPart st' = fixedPart st.
Proof.
  apply (respects_setupManifests (fun st st' => fixedPart st' = fixedPart st)
           (fun _ => True)); fixed_obligations.
Qed.

Lemma setupManifests_untouched {E : Env} (etcd_ vpn externalOauth includeRegistry : bool)
    (st st' : Machine E) :
  setupManifests etcd_ vpn externalOauth includeRegistry st = Done (tt, st') ->
  untouched (setupWrites etcd_ vpn) st st'.
Proof.
  apply (respects_setupManifests (untouched (setupWrites etcd_ vpn))
           (setupWrites etcd_ vpn)).
  - apply untouched_refl.
  - apply untouched_trans.
  - intros st0 g n _. reflexivity.
  - apply untouched_add.
  - intros st0 l n _. reflexivity.
  - intros n Hn. exact Hn.
Qed.

(** ** Registering user manifests *)

(** X6. [addUserManifestFiles] always completes and appends its
    arguments, in order, after the files registered so far, leaving the
    output, the user manifest map and the rest of the context as they
    were; two calls in a row are one call with the arguments of both,
    and a call without arguments changes nothing. *)
Theorem addUserManifestFiles_appends (E : Env) (st : Machine E) (a b : list string) :
  (exists st',
     addUserManifestFiles a st = Done (tt, st') /\
     files st' = files st ++ a /\
     embedded (self st') = embedded (self st) /\
     userManifests (self st') = userManifests (self st) /\
     runtime st' = runtime st) /\
  (addUserManifestFiles a *> addUserManifestFiles b) st =
    addUserManifestFiles (a ++ b) st /\
  addUserManifestFiles [] st = Done (tt, st).
Proof.
  split; [|split].
  - eexists. split; [reflexivity|]. now repeat split.
  - destruct st as [[emb fs um] rt]. unfold bind, addUserManifestFiles, modify, onSelf.
    simpl. unfold setUserManifestFiles. simpl. now rewrite app_assoc.
  - destruct st as [[emb fs um] rt]. unfold addUserManifestFiles, modify, onSelf.
    simpl. unfold setUserManifestFiles. simpl. now rewrite app_nil_r.
Qed.

Lemma clusterBootstrapRange_run {E : Env} (listing : list string) (st : Machine E) :
  exists st',
    clusterBootstrapRange listing st = Done (tt, st') /\
    files st' = files st ++ map (fun m => "cluster-bootstrap/" +:+ m) listing /\
    embedded (self st') = embedded (self st) /\
    userManifests (self st') = userManifests (self st) /\
    runtime st' = runtime st.
Proof.
  revert st. induction listing as [|m listing IH]; intros st.
  - exists st. split; [reflexivity|]. unfold files. simpl.
    now rewrite app_nil_r.
  - cbn [clusterBootstrapRange].
    destruct (IH (onSelf (fun c => setUserManifestFiles
                            (userManifestFiles c ++ ["cluster-bootstrap/" +:+ m]) c) st))
      as (st' & Hrun & Hf & He & Hu & Hr).
    exists st'. split; [exact Hrun|]. rewrite Hf, He, Hu, Hr.
    unfold files. simpl. now rewrite <- app_assoc.
Qed.

(** X7. [clusterBootstrap] panics with the message of the listing error
    when the cluster-bootstrap directory cannot be listed.  Otherwise it
    completes for every listing, the empty one included: it registers
    "cluster-bootstrap/" followed by each entry, in the order of the
    listing, after the files registered so far, and changes nothing
    else; in particular it renders nothing. *)
Theorem clusterBootstrap_registers (E : Env) (st : Machine E) :
  (forall e, AssetDir E "cluster-bootstrap" = Err e -> clusterBootstrap st = Panic e) /\
  (forall listing,
     AssetDir E "cluster-bootstrap" = Ok listing ->
     exists st',
       clusterBootstrap st = Done (tt, st') /\
       files st' = files st ++ map (fun m => "cluster-bootstrap/" +:+ m) listing /\
       embedded (self st') = embedded (self st) /\
       userManifests (self st') = userManifests (self st) /\
       runtime st' = runtime st).
Proof.
  unfold clusterBootstrap. split.
  - intros e ->. reflexivity.
  - intros listing ->. apply clusterBootstrapRange_run.
Qed.

Lemma clusterBootstrap_registers_witness :
  clusterBootstrap Sample.unlistedMachine = Panic "AssetNotFoundError" /\
  exists st',
    clusterBootstrap (Sample.seeded Sample.inOrder) = Done (tt, st') /\
    files st' = [ "cluster-bootstrap/namespaces.yaml"; "cluster-bootstrap/dns_config.yaml" ].
Proof.
  split.
  - apply (proj1 (clusterBootstrap_registers Sample.unlisted _)). reflexivity.
  - destruct (proj2 (clusterBootstrap_registers (Sample.env "")
                       (Sample.seeded Sample.inOrder))
                [ "namespaces.yaml"; "dns_config.yaml" ] eq_refl)
      as (st' & Hrun & Hf & _).
    exists st'. split; [exact Hrun|]. rewrite Hf. reflexivity.
Defined.

(** ** What a setup keeps *)

(** X8. A setup that completes has registered, after the user manifest
    files it found, the cluster-bootstrap assets in the order of the
    listing, then the OAuth ingress secret, the two VPN client assets
    and the registry configuration, each if its flag is set.  It never
    touches the user manifest map, and it leaves the output directory,
    the parameters and the function registry of the context as they
    were, so every expansion of the pass sees the same registry. *)
Theorem setup_keeps_context (E : Env) (etcd_ vpn externalOauth includeRegistry : bool)
    (st st' : Machine E) :
  setupManifests etcd_ vpn externalOauth includeRegistry st = Done (tt, st') ->
  exists listing,
    AssetDir E "cluster-bootstrap" = Ok listing /\
    files st' =
      files st ++
      map (fun m => "cluster-bootstrap/" +:+ m) listing ++
      (if externalOauth then [ "oauth-openshift/ingress-certs-secret.yaml" ] else []) ++
      (if vpn then [ "openvpn/openvpn-client-deployment.yaml";
                     "openvpn/openvpn-client-configmap.yaml" ] else []) ++
      (if includeRegistry then [ "registry/cluster-imageregistry-config.yaml" ] else []) /\
    userManifests (self st') = userManifests (self st) /\
    fixedPart st' = fixedPart st.
Proof.
  intros H. pose proof (setupManifests_fixedPart _ _ _ _ _ _ H) as Hfix.
  apply setupManifests_evolves in H as (listing & Hdir & _ & Hf & Hu & _).
  exists listing. repeat split; assumption.
Qed.

Lemma setup_keeps_context_witness :
  exists st',
    setupManifests false true true false (Sample.seeded Sample.inOrder) = Done (tt, st') /\
    files st' = [ "cluster-bootstrap/namespaces.yaml";
                  "cluster-bootstrap/dns_config.yaml";
                  "oauth-openshift/ingress-certs-secret.yaml";
                  "openvpn/openvpn-client-deployment.yaml";
                  "openvpn/openvpn-client-configmap.yaml" ] /\
    fixedPart st' = fixedPart (Sample.seeded Sample.inOrder).
Proof.
  destruct (setupManifests false true true false (Sample.seeded Sample.inOrder))
    as [[[] st']|msg] eqn:Hrun; [|vm_compute in Hrun; discriminate Hrun].
  destruct (setup_keeps_context (Sample.env "") false true true false _ _ Hrun)
    as (listing & Hdir & Hf & _ & Hfix).
  injection Hdir as <-.
  exists st'. split; [reflexivity|]. split; [rewrite Hf; reflexivity|exact Hfix].
Defined.

(** X9. The remaining flags gate their groups as well.  For a setup that
    completes: with the etcd flag the five etcd manifests are in the
    output; with the external OAuth flag the ingress secret is
    registered and its wrapped manifest is in the output, and without
    the flag the setup does not register it; the same holds for the
    registry flag and the image registry configuration. *)
Theorem other_flags_gate (E : Env) (etcd_ vpn externalOauth includeRegistry : bool)
    (st st' : Machine E) :
  setupManifests etcd_ vpn externalOauth includeRegistry st = Done (tt, st') ->
  (etcd_ = true -> forall n, n ∈ etcdManifests -> n ∈ names st') /\
  (externalOauth = true ->
   "oauth-openshift/ingress-certs-secret.yaml" ∈ files st' /\
   "user-manifest-ingress-certs-secret.yaml" ∈ names st') /\
  (externalOauth = false ->
   "oauth-openshift/ingress-certs-secret.yaml" ∉ files st ->
   "oauth-openshift/ingress-certs-secret.yaml" ∉ files st') /\
  (includeRegistry = true ->
   "registry/cluster-imageregistry-config.yaml" ∈ files st' /\
   "user-manifest-cluster-imageregistry-config.yaml" ∈ names st') /\
  (includeRegistry = false ->
   "registry/cluster-imageregistry-config.yaml" ∉ files st ->
   "registry/cluster-imageregistry-config.yaml" ∉ files st').
Proof.
  intros H. apply setupManifests_evolves in H as (listing & Hdir & Hn & Hf & _).
  assert (Hwrapped : forall f,
            f ∈ registeredBySetup vpn externalOauth includeRegistry listing ->
            wrappedName f ∈ names st').
  { intros f Hreg. rewrite Hn. apply elem_of_addNames. right.
    unfold addedBySetup, addedBeforeRouter, addedByBootstrapper.
    rewrite !elem_of_app, !elem_of_map. left. do 3 right. right. left.
    exists f. split; [reflexivity|]. rewrite elem_of_app. now right. }
  split; [|split; [|split; [|split]]].
  - intros -> n Hin. rewrite Hn. apply elem_of_addNames. right.
    unfold addedBySetup, addedBeforeRouter. rewrite !elem_of_app. tauto.
  - intros ->.
    assert (Hreg : "oauth-openshift/ingress-certs-secret.yaml"
                   ∈ registeredBySetup vpn true includeRegistry listing).
    { unfold registeredBySetup. rewrite !elem_of_app. right. left. left. }
    split; [rewrite Hf, elem_of_app; now right|exact (Hwrapped _ Hreg)].
  - intros -> Hinit Hin. rewrite Hf in Hin.
    apply elem_of_app in Hin as [Hin|Hin]; [contradiction|].
    apply registeredBySetup_cases in Hin as [(m & Heq & _)|Hin]; [discriminate Heq|].
    destruct vpn, includeRegistry; simpl in Hin; not_listed Hin.
  - intros ->.
    assert (Hreg : "registry/cluster-imageregistry-config.yaml"
                   ∈ registeredBySetup vpn externalOauth true listing).
    { unfold registeredBySetup. rewrite !elem_of_app. do 3 right. left. }
    split; [rewrite Hf, elem_of_app; now right|exact (Hwrapped _ Hreg)].
  - intros -> Hinit Hin. rewrite Hf in Hin.
    apply elem_of_app in Hin as [Hin|Hin]; [contradiction|].
    apply registeredBySetup_cases in Hin as [(m & Heq & _)|Hin]; [discriminate Heq|].
    destruct vpn, externalOauth; simpl in Hin; not_listed Hin.
Qed.

Lemma other_flags_gate_witness :
  (exists st',
     setupManifests true false true false (Sample.seeded Sample.inOrder) = Done (tt, st') /\
     (forall n, n ∈ etcdManifests -> n ∈ names st') /\
     "user-manifest-ingress-certs-secret.yaml" ∈ names st' /\
     "registry/cluster-imageregistry-config.yaml" ∉ files st').
Proof.
  destruct (setupManifests true false true false (Sample.seeded Sample.inOrder))
    as [[[] st']|msg] eqn:Hrun; [|vm_compute in Hrun; discriminate Hrun].
  destruct (other_flags_gate (Sample.env "") true false true false _ _ Hrun)
    as (Hetcd & Hoauth & _ & _ & Hregistry).
  exists st'. split; [reflexivity|]. split; [exact (Hetcd eq_refl)|].
  split; [exact (proj2 (Hoauth eq_refl))|].
  apply (Hregistry eq_refl). intros Hin. now apply elem_of_nil in Hin.
Defined.

(** X10. A setup only adds and rewrites: every name that was in the
    output before is in it after, and every entry is exactly as it was
    unless its name is the API server deployment, a manifest of a group
    that ran, or a name that starts with "user-manifest-". *)
Theorem setup_only_writes_its_names (E : Env)
    (etcd_ vpn externalOauth includeRegistry : bool) (st st' : Machine E) :
  setupManifests etcd_ vpn externalOauth includeRegistry st = Done (tt, st') ->
  (forall n, n ∈ names st -> n ∈ names st') /\
  (forall n, ~ setupWrites etcd_ vpn n -> OMap.get n (out st') = OMap.get n (out st)).
Proof.
  intros H. split.
  - apply setupManifests_evolves in H as (listing & _ & Hn & _).
    intros n Hin. rewrite Hn. apply elem_of_addNames. now left.
  - now apply setupManifests_untouched in H.
Qed.

Lemma setup_only_writes_its_names_witness :
  exists st',
    setupManifests false true true true (Sample.withForeign Sample.inOrder)
      = Done (tt, st') /\
    OMap.get "notes/readme.txt" (out st') = Some "keep".
Proof.
  destruct (setupManifests false true true true (Sample.withForeign Sample.inOrder))
    as [[[] st']|msg] eqn:Hrun; [|vm_compute in Hrun; discriminate Hrun].
  exists st'. split; [reflexivity|].
  rewrite (proj2 (setup_only_writes_its_names (Sample.env "") false true true true
                    _ _ Hrun) "notes/readme.txt"); [reflexivity|].
  intros [Hw|[Hw|Hw]]; [discriminate Hw|simpl in Hw; not_listed Hw|discriminate Hw].
Defined.

(** ** Which wrapping an output name holds *)

Lemma substituteParams_inv {E : Env} (data : TemplateData (ClusterParams E))
    (f : string) (st st1 : Machine E) (r : result string) :
  substituteParams data f st = Done (r, st1) ->
  exists g,
    execute E (funcs (embedded (self st))) data f (rng (runtime st)) = (r, g) /\
    st1 = setRng g st.
Proof.
  unfold substituteParams.
  destruct (execute E _ data f _) as [r' g'] eqn:Hexec.
  intros H. injection H as <- <-. now exists g'.
Qed.

Lemma bootstrapEntries_last_write {E : Env} (es : list (string * string))
    (st st' : Machine E) (name data : string) :
  bootstrapEntries es st = Done (tt, st') ->
  NoDup (map fst es) -> (name, data) ∈ es ->
  exists g g' manifest,
    execute E (funcs (embedded (self st)))
      (MapData {[ "data" := data;
                  "name" := "user-manifest-" +:+
                            underscoresToHyphens (beforeFirstDot name) ]})
      wrapperTemplate g = (Ok manifest, g') /\
    OMap.get ("user-manifest-" +:+ name) (out st') = Some manifest.
Proof.
  revert st. induction es as [|[n d] es IH]; intros st H Hnd Hin.
  - now apply elem_of_nil in Hin.
  - cbn [bootstrapEntries] in H. simpl in Hnd. apply NoDup_cons in Hnd as [Hfresh Hnd].
    apply bind_Done in H as (cm & st2 & Hcm & H).
    rewrite configMapName_run in Hcm. injection Hcm as <- <-.
    apply bind_Done in H as (r & st3 & Hr & H).
    apply substituteParams_inv in Hr as (g & Hexec & ->).
    destruct r as [manifest|e]; [|discriminate].
    apply bind_Done in H as ([] & st4 & Ha & H).
    rewrite addManifest_run in Ha. injection Ha as <-.
    apply elem_of_cons in Hin as [Heq|Hin].
    + injection Heq as -> ->.
      exists (rng (runtime st)), g, manifest. split; [exact Hexec|].
      assert (Hkeep : untouched (fun k => k ∈ map entryName es)
                        (onSelf (fun c => setManifests
                           (OMap.set ("user-manifest-" +:+ n) manifest
                              (manifests (embedded c))) c) (setRng g st)) st').
      { apply (respects_bootstrapEntries
                 (untouched (fun k => k ∈ map entryName es))
                 (fun k => k ∈ map entryName es)
                 (untouched_refl _) (untouched_trans _)
                 (fun st0 g0 n0 _ => eq_refl) (untouched_add _) es
                 (fun entry Hentry => proj2 (elem_of_map entryName es _)
                                        (ex_intro _ entry (conj eq_refl Hentry)))
                 _ tt _ H). }
      rewrite Hkeep.
      * unfold out. simpl. apply OMap_get_set_eq.
      * intros Hk. apply elem_of_map in Hk as ([n' d'] & Hk & Hin').
        apply append_inj in Hk. simpl in Hk. subst n'.
        apply Hfresh. apply elem_of_map. now exists (n, d').
    + apply (IH _ H Hnd Hin).
Qed.

(** X11. An entry of the user manifest map always ends up in the
    output: when the bootstrapper completes and the range visits every
    entry of the map once, the output holds, under "user-manifest-"
    followed by the entry's name, a wrapping of that entry's content
    under the ConfigMap name derived from its name.  A user manifest
    file with the same base name does not survive, since the map is
    wrapped after the files. *)
Theorem user_manifest_entries_win (E : Env) (st st' : Machine E) (name data : string) :
  userManifestsBootstrapper st = Done (tt, st') ->
  (forall l, rangeOrder (runtime st) l ≡ₚ l) ->
  userManifests (self st) !! name = Some data ->
  exists g g' manifest,
    execute E (funcs (embedded (self st)))
      (MapData {[ "data" := data;
                  "name" := "user-manifest-" +:+
                            underscoresToHyphens (beforeFirstDot name) ]})
      wrapperTemplate g = (Ok manifest, g') /\
    OMap.get ("user-manifest-" +:+ name) (out st') = Some manifest.
Proof.
  intros H Hperm Hlookup. unfold userManifestsBootstrapper in H.
  apply bind_Done in H as ([] & st1 & H1 & H).
  apply bind_Done in H as ([] & st2 & H2 & H).
  apply bind_Done in H2 as (c & st1' & Hc & H2). injection Hc as <- <-.
  pose proof (addManifestFiles_evolves _ _ _ H1) as (_ & _ & Hu1 & Ho1).
  pose proof (bootstrapFiles_evolves _ _ _ H2) as (_ & _ & Hu2 & Ho2).
  rewrite Hu2, Ho2, Hu1, Ho1 in H.
  assert (Hfix : fixedPart st2 = fixedPart st).
  { transitivity (fixedPart st1).
    - apply (respects_bootstrapFiles (fun st st' => fixedPart st' = fixedPart st)
               (fun _ => True)) with (fs := userManifestFiles (self st1)) (a := tt);
        [fixed_obligations..|exact H2].
    - apply (respects_addManifestFiles (fun st st' => fixedPart st' = fixedPart st)
               (fun _ => True)) with (l := [bootstrapperPod]) (a := tt);
        [fixed_obligations..|exact H1]. }
  assert (Hfuncs : funcs (embedded (self st2)) = funcs (embedded (self st))).
  { unfold fixedPart in Hfix. congruence. }
  rewrite <- Hfuncs.
  apply (bootstrapEntries_last_write _ _ _ name data H).
  - change (map fst ?l) with (l.*1). rewrite (Hperm _).
    apply NoDup_fst_map_to_list.
  - rewrite (Hperm _). now apply elem_of_map_to_list.
Qed.

Lemma user_manifest_entries_win_witness :
  exists st',
    userManifestsBootstrapper (Sample.withUserManifests Sample.reversed) = Done (tt, st') /\
    OMap.get "user-manifest-ca_bundle.crt" (out st')
      = Some "name: user-manifest-ca-bundle data: CERT".
Proof.
  destruct (userManifestsBootstrapper (Sample.withUserManifests Sample.reversed))
    as [[[] st']|msg] eqn:Hrun; [|vm_compute in Hrun; discriminate Hrun].
  exists st'. split; [reflexivity|].
  destruct (user_manifest_entries_win (Sample.env "") _ _ "ca_bundle.crt" "CERT" Hrun)
    as (g & g' & manifest & Hexec & Hget).
  - intros l. simpl. symmetry. apply Permutation_rev.
  - vm_compute. reflexivity.
  - etransitivity; [exact Hget|]. f_equal.
    vm_compute in Hexec. now injection Hexec as <- _.
Defined.

(** X12. With no user manifest registered, neither as a file nor in the
    map, the bootstrapper adds the bootstrapper pod manifest and nothing
    else: every other entry of the output is exactly as it was. *)
Theorem bootstrapper_alone (E : Env) (st st' : Machine E) :
  userManifestsBootstrapper st = Done (tt, st') ->
  files st = [] -> rangedEntries st = [] ->
  names st' = addName (names st) bootstrapperPod /\
  forall n, n <> bootstrapperPod -> OMap.get n (out st') = OMap.get n (out st).
Proof.
  intros H Hfiles Hentries. split.
  - apply userManifestsBootstrapper_evolves in H as (Hn & _).
    rewrite Hn, Hfiles, Hentries. reflexivity.
  - apply (userManifestsBootstrapper_related
             (untouched (fun k => k = bootstrapperPod)) (fun k => k = bootstrapperPod)
             (untouched_refl _) (untouched_trans _)
             (fun st0 g0 n0 _ => eq_refl) (untouched_add _) st st' H eq_refl).
    + rewrite Hfiles. intros f Hf. now apply elem_of_nil in Hf.
    + rewrite Hentries. intros entry Hentry. now apply elem_of_nil in Hentry.
Qed.

Lemma bootstrapper_alone_witness :
  exists st',
    userManifestsBootstrapper (Sample.withForeign Sample.inOrder) = Done (tt, st') /\
    names st' = [ "kube-apiserver-deployment.yaml"; "notes/readme.txt"; bootstrapperPod ] /\
    OMap.get "notes/readme.txt" (out st') = Some "keep".
Proof.
  destruct (userManifestsBootstrapper (Sample.withForeign Sample.inOrder))
    as [[[] st']|msg] eqn:Hrun; [|vm_compute in Hrun; discriminate Hrun].
  destruct (bootstrapper_alone (Sample.env "") _ _ Hrun eq_refl eq_refl) as [Hn Hget].
  exists st'. split; [reflexivity|]. split; [rewrite Hn; reflexivity|].
  rewrite Hget; [reflexivity|discriminate].
Defined.

Lemma bootstrapFiles_app {E : Env} (l1 l2 : list string) (st : Machine E) :
  bootstrapFiles (l1 ++ l2) st = (bootstrapFiles l1 *> bootstrapFiles l2) st.
Proof.
  rewrite bootstrapFiles_forEach, forEach_app.
  apply bind_ext2.
  - symmetry. apply bootstrapFiles_forEach.
  - intros [] st1. symmetry. apply bootstrapFiles_forEach.
Qed.

(** X13. Among user manifest files with the same base name the last one
    registered wins: when the first loop of the bootstrapper completes on
    a list in which no later file has the base name of [file], the output
    holds, under "user-manifest-" followed by that base name, the
    wrapping of the expansion of [file], whatever files with the same
    base name came before it. *)
Theorem last_user_manifest_file_wins (E : Env) (st st' : Machine E)
    (before after : list string) (file : string) :
  bootstrapFiles (before ++ file :: after) st = Done (tt, st') ->
  (forall f, f ∈ after -> Go.Base f <> Go.Base file) ->
  exists data g1 g2 g3 manifest,
    execute E (funcs (embedded (self st))) (ParamsData (params (embedded (self st))))
      file g1 = (Ok data, g2) /\
    execute E (funcs (embedded (self st)))
      (MapData {[ "data" := data;
                  "name" := "user-manifest-" +:+
                            underscoresToHyphens (beforeFirstDot (Go.Base file)) ]})
      wrapperTemplate g2 = (Ok manifest, g3) /\
    OMap.get ("user-manifest-" +:+ Go.Base file) (out st') = Some manifest.
Proof.
  intros H Hafter. rewrite bootstrapFiles_app in H.
  apply bind_Done in H as ([] & st1 & Hb & H).
  assert (Hfix : fixedPart st1 = fixedPart st).
  { apply (respects_bootstrapFiles (fun st st' => fixedPart st' = fixedPart st)
             (fun _ => True)) with (fs := before) (a := tt);
      [fixed_obligations..|exact Hb]. }
  assert (Hfuncs : funcs (embedded (self st1)) = funcs (embedded (self st)))
    by (unfold fixedPart in Hfix; congruence).
  assert (Hparams : params (embedded (self st1)) = params (embedded (self st)))
    by (unfold fixedPart in Hfix; congruence).
  cbn [bootstrapFiles] in H.
  apply bind_Done in H as (c & st0 & Hc & H). injection Hc as <- <-.
  apply bind_Done in H as (r & st2 & Hr & H).
  apply substituteParams_inv in Hr as (g & Hexec & ->).
  destruct r as [data|e]; [|discriminate].
  apply bind_Done in H as (cm & st3 & Hcm & H).
  rewrite configMapName_run in Hcm. injection Hcm as <- <-.
  apply bind_Done in H as (r2 & st4 & Hr2 & H).
  apply substituteParams_inv in Hr2 as (g2 & Hexec2 & ->).
  destruct r2 as [manifest|e]; [|discriminate].
  apply bind_Done in H as ([] & st5 & Ha & H).
  rewrite addManifest_run in Ha. injection Ha as <-.
  simpl in Hexec2. rewrite Hfuncs in Hexec, Hexec2. rewrite Hparams in Hexec.
  exists data, (rng (runtime st1)), g, g2, manifest.
  split; [exact Hexec|]. split; [exact Hexec2|].
  assert (Hkeep : untouched (fun k => k ∈ map wrappedName after)
                    (onSelf (fun c => setManifests
                       (OMap.set ("user-manifest-" +:+ Go.Base file) manifest
                          (manifests (embedded c))) c) (setRng g2 (setRng g st1))) st').
  { apply (respects_bootstrapFiles
             (untouched (fun k => k ∈ map wrappedName after))
             (fun k => k ∈ map wrappedName after)
             (untouched_refl _) (untouched_trans _)
             (fun st0 g0 n0 _ => eq_refl) (untouched_add _) after
             (fun f Hf => proj2 (elem_of_map wrappedName after _)
                            (ex_intro _ f (conj eq_refl Hf)))
             _ tt _ H). }
  rewrite Hkeep.
  - unfold out. simpl. apply OMap_get_set_eq.
  - intros Hk. apply elem_of_map in Hk as (f & Hk & Hin).
    apply append_inj in Hk. symmetry in Hk. now apply (Hafter f Hin).
Qed.

Lemma last_user_manifest_file_wins_witness :
  exists st',
    bootstrapFiles [ "a/cfg.yaml"; "b/cfg.yaml" ] (Sample.seeded Sample.inOrder)
      = Done (tt, st') /\
    OMap.get "user-manifest-cfg.yaml" (out st')
      = Some "name: user-manifest-cfg data: # b/cfg.yaml".
Proof.
  destruct (bootstrapFiles [ "a/cfg.yaml"; "b/cfg.yaml" ] (Sample.seeded Sample.inOrder))
    as [[[] st']|msg] eqn:Hrun; [|vm_compute in Hrun; discriminate Hrun].
  exists st'. split; [reflexivity|].
  destruct (last_user_manifest_file_wins (Sample.env "") _ _
              [ "a/cfg.yaml" ] [] "b/cfg.yaml" Hrun)
    as (data & g1 & g2 & g3 & manifest & Hexec & Hexec2 & Hget).
  - intros f Hf. now apply elem_of_nil in Hf.
  - etransitivity; [exact Hget|]. f_equal.
    vm_compute in Hexec. injection Hexec as <- _.
    vm_compute in Hexec2. now injection Hexec2 as <- _.
Defined.
